(** * TelegramSignalForwardingBot: the signal normalizer and the message relay

    A shallow embedding of [src/utils/llm_processor.py],
    [src/handlers/forwarder.py] and [src/bot.py].

    Conventions of the embedding.
    - A Python [str] is a [string]; its characters are read as the code
      points U+0000 .. U+00FF.  [isspace], [lower] and the regular
      expression class [\d] are written out for that range.
    - A Python [float] that [float()] can build from a run of digits and
      dots is a non-negative binary64 value or [inf]; it is kept as the
      integer number of units of 2^-1074 it holds, so that the order of
      floats is the order of [Z].
    - A call that can raise returns a [sum] or an [option]; the relay runs
      in a small monad that threads the transport and the log and keeps
      what was done before an exception was raised. *)

From Stdlib Require Import ZArith List Bool Ascii String Lia.
From Stdlib Require Import Numbers.DecimalString.
Import ListNotations.

Local Open Scope string_scope.

(** ** Python string operations *)

Module PyStr.

(** The line feed, ['\n']. *)
Definition nl : ascii := "010"%char.
Definition NL : string := String nl "".

(** [str.isspace] for one character of the range U+0000 .. U+00FF:
    TAB..CR, FS..US, SPACE, NEL and NBSP. *)
Definition is_space (c : ascii) : bool :=
  let n := nat_of_ascii c in
  (((9 <=? n) && (n <=? 13)) || ((28 <=? n) && (n <=? 32))
   || (n =? 133) || (n =? 160))%nat.

(** The class [\d] of [re] on that range: the ten ASCII digits. *)
Definition is_digit (c : ascii) : bool :=
  let n := nat_of_ascii c in ((48 <=? n) && (n <=? 57))%nat.

(** The class [[\d.]]. *)
Definition is_numch (c : ascii) : bool :=
  is_digit c || (c =? ".")%char.

(** [str.lower] for one character: A..Z and the capital letters of
    U+00C0 .. U+00DE, the multiplication sign U+00D7 apart. *)
Definition lower_char (c : ascii) : ascii :=
  let n := nat_of_ascii c in
  if (((65 <=? n) && (n <=? 90))
      || ((192 <=? n) && (n <=? 222) && negb (n =? 215)))%nat
  then ascii_of_nat (n + 32) else c.

Fixpoint lower (s : string) : string :=
  match s with
  | "" => ""
  | String c r => String (lower_char c) (lower r)
  end.

(** [s.startswith(p)]. *)
Definition startswith (p s : string) : bool := String.prefix p s.

(** [sub in s]. *)
Fixpoint contains (sub s : string) : bool :=
  String.prefix sub s ||
  match s with
  | "" => false
  | String _ r => contains sub r
  end.

(** [s.split(c)] for a separator of one character. *)
Fixpoint split (c : ascii) (s : string) : list string :=
  match s with
  | "" => [""]
  | String a r =>
      if (a =? c)%char then "" :: split c r
      else match split c r with
           | [] => [String a ""]
           | h :: t => String a h :: t
           end
  end.

(** [sep.join(ls)]. *)
Definition join (sep : string) (ls : list string) : string :=
  String.concat sep ls.

(** [s[n:]]. *)
Fixpoint drop (n : nat) (s : string) : string :=
  match n, s with
  | O, _ => s
  | S _, "" => ""
  | S m, String _ r => drop m r
  end.

Fixpoint lstrip (s : string) : string :=
  match s with
  | "" => ""
  | String c r => if is_space c then lstrip r else s
  end.

Fixpoint rstrip (s : string) : string :=
  match s with
  | "" => ""
  | String c r =>
      match rstrip r with
      | "" => if is_space c then "" else String c ""
      | r' => String c r'
      end
  end.

(** [s.strip()]. *)
Definition strip (s : string) : string := rstrip (lstrip s).

Fixpoint rev_acc (s acc : string) : string :=
  match s with
  | "" => acc
  | String c r => rev_acc r (String c acc)
  end.

(** [re.findall(r'[\d.]+', s)]: the maximal runs of digits and dots, from
    left to right.  [cur] holds the run being read, last character first. *)
Fixpoint findall_from (cur s : string) : list string :=
  match s with
  | "" => match cur with "" => [] | _ => [rev_acc cur ""] end
  | String c r =>
      if is_numch c then findall_from (String c cur) r
      else match cur with
           | "" => findall_from "" r
           | _ => rev_acc cur "" :: findall_from "" r
           end
  end.

Definition findall_numbers (s : string) : list string := findall_from "" s.

(** The strings made of digits and dots only. *)
Fixpoint all_numch (s : string) : bool :=
  match s with
  | "" => true
  | String c r => is_numch c && all_numch r
  end.

(** [next((l for l in ls if l.startswith(p)), '')]. *)
Definition first_startswith (p : string) (ls : list string) : string :=
  match find (startswith p) ls with
  | Some l => l
  | None => ""
  end.

(** [ls.index(x)]; [None] stands for the [ValueError]. *)
Fixpoint index (x : string) (ls : list string) : option nat :=
  match ls with
  | [] => None
  | y :: t => if (y =? x)%string then Some O else option_map S (index x t)
  end.

(** [s.split(c, 1)[1]]; [None] stands for the [IndexError] when [c] does
    not occur. *)
Fixpoint after_first (c : ascii) (s : string) : option string :=
  match s with
  | "" => None
  | String a r => if (a =? c)%char then Some r else after_first c r
  end.

(** [c in s] for one character. *)
Fixpoint has_char (c : ascii) (s : string) : bool :=
  match s with
  | "" => false
  | String a r => (a =? c)%char || has_char c r
  end.

End PyStr.

(** ** Python floats built from digit runs *)

Module PyFloat.

Local Open Scope Z_scope.

(** A float is [Finite k], the value k * 2^-1074 with 0 <= k, or [inf]. *)
Inductive float := Finite (k : Z) | Infinity.

(** The exponent of the smallest positive binary64 value. *)
Definition emin : Z := 1074.
(** 2^1024 in units of 2^-1074: the first value past the largest finite
    float. *)
Definition overflow_threshold : Z := 2 ^ 2098.

(** Rounding of num/den to the nearest integer, ties to even. *)
Definition round_half_even (num den : Z) : Z :=
  let q := num / den in
  let r := num mod den in
  if 2 * r <? den then q
  else if den <? 2 * r then q + 1
  else if Z.even q then q else q + 1.

(** The binary64 value nearest to num/den (0 <= num, 0 < den), ties to
    even: 53 significant bits, gradual underflow, overflow to [inf]. *)
Definition round_binary64 (num den : Z) : float :=
  let q := num * 2 ^ emin in
  let s := Z.max 0 (Z.log2 (q / den) - 52) in
  let k := round_half_even q (den * 2 ^ s) * 2 ^ s in
  if overflow_threshold <=? k then Infinity else Finite k.

(** The value of a run of ASCII digits, read in base ten. *)
Definition digit_val (c : ascii) : Z := Z.of_nat (nat_of_ascii c) - 48.

Fixpoint digits_val (acc : Z) (s : string) : Z :=
  match s with
  | EmptyString => acc
  | String c r => digits_val (10 * acc + digit_val c) r
  end.

Fixpoint all_digits (s : string) : bool :=
  match s with
  | EmptyString => true
  | String c r => PyStr.is_digit c && all_digits r
  end.

(** The digits before the first dot and what follows the dot, if any. *)
Fixpoint cut_dot (s : string) : string * option string :=
  match s with
  | EmptyString => (EmptyString, None)
  | String c r =>
      if (c =? ".")%char then (EmptyString, Some r)
      else let (i, f) := cut_dot r in (String c i, f)
  end.

(** [float(t)] for a string [t] of digits and dots, as the scanner yields
    them: digits with at most one dot and at least one digit, correctly
    rounded.  [None] stands for the [ValueError]. *)
Definition float_of_token (t : string) : option float :=
  let (i, f) := cut_dot t in
  let f := match f with Some f => f | None => EmptyString end in
  if all_digits i && all_digits f
     && negb ((String.length i + String.length f =? 0)%nat)
  then Some (round_binary64 (digits_val 0 (i ++ f))
                            (10 ^ Z.of_nat (String.length f)))
  else None.

(** [a < b]. *)
Definition ltb (a b : float) : bool :=
  match a, b with
  | Finite x, Finite y => x <? y
  | Finite _, Infinity => true
  | Infinity, _ => false
  end.

Definition le (a b : float) : Prop :=
  match a, b with
  | Finite x, Finite y => x <= y
  | _, Infinity => True
  | Infinity, Finite _ => False
  end.

(** [min(a, b)]: the first argument unless the second is smaller. *)
Definition min (a b : float) : float := if ltb b a then b else a.
(** [max(a, b)]: the first argument unless the second is greater. *)
Definition max (a b : float) : float := if ltb a b then b else a.

(** *** [repr] of a float

    [float_repr] of CPython gives the shortest run of decimal digits that
    [float()] reads back as the same value, the nearest to the value among
    the runs of that length, and lays it out with format code ['r']. *)

(** num/den = (k * 2^-1074) / 10^p. *)
Definition scaled (k p : Z) : Z * Z :=
  if 0 <=? p then (k, 2 ^ emin * 10 ^ p) else (k * 10 ^ (- p), 2 ^ emin).

(** The float that w * 10^p is read as. *)
Definition read_decimal (w p : Z) : float :=
  if 0 <=? p then round_binary64 (w * 10 ^ p) 1
  else round_binary64 w (10 ^ (- p)).

Definition uint_string (w : Z) : string :=
  NilZero.string_of_uint (N.to_uint (Z.to_N w)).

(** floor(log10 (k * 2^-1074)) for 0 < k. *)
Definition decimal_exponent (k : Z) : Z :=
  Z.of_nat (String.length (uint_string (k * 10 ^ 400 / 2 ^ emin))) - 401.

(** The candidates with [n] digits: the value cut after [n] digits and
    its successor.  Whichever reads back as [k] is kept, the nearer one
    when both do. *)
Definition candidate (k e n : Z) : option (Z * Z) :=
  let p := e - (n - 1) in
  let (num, den) := scaled k p in
  let lo := num / den in
  let hi := lo + 1 in
  let r := num mod den in
  let lo_ok := match read_decimal lo p with
               | Finite k' => k' =? k | Infinity => false end in
  let hi_ok := match read_decimal hi p with
               | Finite k' => k' =? k | Infinity => false end in
  match lo_ok, hi_ok with
  | true, true =>
      if 2 * r <? den then Some (lo, p)
      else if den <? 2 * r then Some (hi, p)
      else if Z.even lo then Some (lo, p) else Some (hi, p)
  | true, false => Some (lo, p)
  | false, true => Some (hi, p)
  | false, false => None
  end.

(** The first length, from [n] on, that has a candidate; seventeen digits
    always identify a binary64 value. *)
Fixpoint shortest_from (fuel : nat) (k e n : Z) : Z * Z :=
  match fuel with
  | O => (round_half_even (fst (scaled k (e - 16))) (snd (scaled k (e - 16))),
          e - 16)
  | S fuel' =>
      match candidate k e n with
      | Some c => c
      | None => shortest_from fuel' k e (n + 1)
      end
  end.

Fixpoint rstrip_zeros (s : string) : string :=
  match s with
  | EmptyString => EmptyString
  | String c r =>
      match rstrip_zeros r with
      | EmptyString => if (c =? "0")%char then EmptyString
                       else String c EmptyString
      | r' => String c r'
      end
  end.

(** What [_Py_dg_dtoa] returns in mode 0 for a positive finite value: the
    digits, without trailing zeros, and the position [decpt] of the
    decimal point, the value being 0.d1d2...dn * 10^decpt. *)
Definition dtoa_shortest (k : Z) : string * Z :=
  let (w, p) := shortest_from 17 k (decimal_exponent k) 1 in
  let ds := uint_string w in
  (rstrip_zeros ds, Z.of_nat (String.length ds) + p).

Fixpoint zeros (n : nat) : string :=
  match n with
  | O => EmptyString
  | S m => String "0"%char (zeros m)
  end.

Fixpoint take (n : nat) (s : string) : string :=
  match n, s with
  | O, _ => EmptyString
  | S _, EmptyString => EmptyString
  | S m, String c r => String c (take m r)
  end.

(** The exponent as [sprintf("%+.02d")] writes it. *)
Definition exponent_string (e : Z) : string :=
  let a := uint_string (Z.abs e) in
  (if e <? 0 then "-" else "+")
  ++ (if (String.length a <? 2)%nat then "0" else "") ++ a.

(** The layout of [format_float_short] for format code ['r'] with
    [Py_DTSF_ADD_DOT_0]: an exponent when decpt <= -4 or 16 < decpt. *)
Definition layout (digits : string) (decpt : Z) : string :=
  let n := Z.of_nat (String.length digits) in
  if (decpt <=? -4) || (16 <? decpt) then
     take 1 digits
     ++ (if 1 <? n then "." ++ PyStr.drop 1 digits else "")
     ++ "e" ++ exponent_string (decpt - 1)
  else if decpt <=? 0 then
     "0." ++ zeros (Z.to_nat (- decpt)) ++ digits
  else if decpt <? n then
     take (Z.to_nat decpt) digits ++ "." ++ PyStr.drop (Z.to_nat decpt) digits
  else
     digits ++ zeros (Z.to_nat (decpt - n)) ++ ".0".

(** [str(x)], [repr(x)] and [f"{x}"] of a float. *)
Definition float_str (x : float) : string :=
  match x with
  | Infinity => "inf"
  | Finite k =>
      if k <=? 0 then "0.0"
      else let (ds, decpt) := dtoa_shortest k in layout ds decpt
  end.

(** [str(float(t))] for a string [t] of digits and dots. *)
Definition shown (t : string) : option string :=
  option_map float_str (float_of_token t).

End PyFloat.

(** ** The signal normalizer, [src/utils/llm_processor.py] *)

Module Normalizer.

Import PyStr.

(** [sort_price_range]: two runs of digits and dots that both read as
    floats are written back lower first; a [ValueError] of [float] is
    swallowed by the bare [except], and the argument is returned as it came
    in every other case. *)
Definition sort_price_range (price_range_str : string) : string :=
  match findall_numbers price_range_str with
  | [t1; t2] =>
      match PyFloat.float_of_token t1, PyFloat.float_of_token t2 with
      | Some num1, Some num2 =>
          PyFloat.float_str (PyFloat.min num1 num2) ++ " - "
          ++ PyFloat.float_str (PyFloat.max num1 num2)
      | _, _ => price_range_str
      end
  | _ => price_range_str
  end.

(** The two floats that [sort_price_range] reads from its argument: there
    are two exactly when the scan finds two runs and [float] accepts both. *)
Definition scanned_pair (s : string) : option (PyFloat.float * PyFloat.float) :=
  match findall_numbers s with
  | [t1; t2] =>
      match PyFloat.float_of_token t1, PyFloat.float_of_token t2 with
      | Some num1, Some num2 => Some (num1, num2)
      | _, _ => None
      end
  | _ => None
  end.

(** The body of the loop of [format_final_response], for one line. *)
Definition format_line (line : string) : string :=
  if startswith "Entry:" line && contains " - " line then
    let prefix := hd "" (split ":" line) ++ ": " in
    let price_range := strip (drop (String.length prefix) line) in
    let sorted_range := sort_price_range price_range in
    prefix ++ sorted_range
  else line.

Definition format_final_response (response_text : string) : string :=
  let lines := split nl response_text in
  let formatted_lines := map format_line lines in
  join NL formatted_lines.

(** What [model.generate_content(prompt)] and the read of [response.text]
    come to: an exception, kept as its [str], or the text of the response. *)
Inductive llm_outcome :=
| Raised (msg : string)
| Responded (text : string).

(** The [str] of the [ValueError] of [list.index] for ['FORMAT:']. *)
Definition format_not_in_list : string := "'FORMAT:' is not in list".
(** The [str] of the [IndexError] of a subscript past the end of a list. *)
Definition list_index_out_of_range : string := "list index out of range".

(** The result of [process_with_llm]: is_valid, reason, formatted text. *)
Definition result : Type := bool * option string * option string.

(** The handler of the [try] of [process_with_llm]. *)
Definition processing_error (msg : string) : result :=
  (false, Some ("Error processing message: " ++ msg), None).

(** The body of the [try] of [process_with_llm] once the call has
    returned; [inl msg] is an exception raised on the way. *)
Definition parse_response (text : string) : string + result :=
  if (text =? "")%string then inr (false, Some "Empty response from LLM", None)
  else
    let sections := split nl (strip text) in
    let valid_line := first_startswith "VALID:" sections in
    let is_valid := contains "true" (lower valid_line) in
    let reason_line := first_startswith "REASON:" sections in
    let reason :=
      if (reason_line =? "")%string then inr None
      else match after_first ":" reason_line with
           | Some r => inr (Some (strip r))
           | None => inl list_index_out_of_range
           end in
    match reason with
    | inl e => inl e
    | inr reason =>
        if negb is_valid then inr (false, reason, None)
        else
          match index "FORMAT:" sections with
          | None => inl format_not_in_list
          | Some i =>
              let format_section := strip (join NL (skipn (i + 1) sections)) in
              if (format_section =? "")%string
                 || (format_section =? "None")%string
              then inr (false, Some "Failed to format message", None)
              else
                let final_response := format_final_response format_section in
                inr (true, None, Some final_response)
          end
    end.

(** [process_with_llm] from the outcome of the external call on. *)
Definition process_outcome (o : llm_outcome) : result :=
  match o with
  | Raised msg => processing_error msg
  | Responded text =>
      match parse_response text with
      | inl msg => processing_error msg
      | inr r => r
      end
  end.

(** [process_with_llm]: [generate] stands for the prompt built around
    [message_text] and sent through [model.generate_content]. *)
Definition process_with_llm (generate : string -> llm_outcome)
    (message_text : string) : result :=
  process_outcome (generate message_text).

End Normalizer.

(** ** The message relay, [src/handlers/forwarder.py] *)

Module Relay.

Import PyStr Normalizer.

Record chat := { title : string; chat_id : Z }.

Record message := { message_id : Z; raw_text : string }.

(** A new-message event: its message and what awaiting [event.get_chat()]
    comes to, the [str] of an exception or the chat. *)
Record event := { ev_message : message; get_chat : string + chat }.

Inductive level := DEBUG | INFO | WARNING | ERROR.

(** What the handler does to the outside: a call of the logger, of
    [client.send_message] or of [client.forward_messages]. *)
Inductive action :=
| Log (lvl : level) (msg : string)
| SendMessage (entity : Z) (text : string) (link_preview : bool)
| ForwardMessages (entity : Z) (msg : message).

(** The transport and the log: [script] holds the outcome of each call of
    the client still to come, [None] when it returns and [Some msg] when it
    raises an exception whose [str] is [msg] (a call past the end of the
    script returns); [trace] holds the actions so far, oldest first. *)
Record state := { script : list (option string); trace : list action }.

(** A computation returns a value or raises an exception of the class
    [Exception], kept as its [str]; the state reached is kept in both
    cases. *)
Definition M (A : Type) : Type := state -> state * (string + A).

Definition ret {A} (a : A) : M A := fun st => (st, inr a).

Definition bind {A B} (m : M A) (f : A -> M B) : M B :=
  fun st =>
    match m st with
    | (st', inr a) => f a st'
    | (st', inl e) => (st', inl e)
    end.

(** [try: m  except Exception as e: h e]. *)
Definition try_except {A} (m : M A) (h : string -> M A) : M A :=
  fun st =>
    match m st with
    | (st', inr a) => (st', inr a)
    | (st', inl e) => h e st'
    end.

Notation "x <- m ;; k" := (bind m (fun x => k))
  (at level 61, m at next level, right associativity).
Notation "m ;; k" := (bind m (fun _ => k))
  (at level 61, right associativity).

(** An awaited value that was settled by the event. *)
Definition await {A} (r : string + A) : M A := fun st => (st, r).

Definition log (lvl : level) (msg : string) : M unit :=
  fun st => ({| script := script st; trace := trace st ++ [Log lvl msg] |},
             inr tt).

(** A call of the client: it is recorded, and its outcome is the next one
    of the script. *)
Definition client_call (a : action) : M unit :=
  fun st =>
    match script st with
    | [] => ({| script := []; trace := trace st ++ [a] |}, inr tt)
    | None :: rest => ({| script := rest; trace := trace st ++ [a] |}, inr tt)
    | Some e :: rest =>
        ({| script := rest; trace := trace st ++ [a] |}, inl e)
    end.

(** [str(n)] of an [int]. *)
Definition int_str (n : Z) : string := NilZero.string_of_int (Z.to_int n).

(** [f"{x}"] of an [Optional[str]]. *)
Definition opt_str (x : option string) : string :=
  match x with Some s => s | None => "None" end.

(** The truth value of an [Optional[str]]. *)
Definition truthy (x : option string) : bool :=
  match x with
  | Some s => negb (s =? "")%string
  | None => false
  end.

Definition formatting_failed : string :=
  "LLM formatting failed, forwarding original message".

Section Handler.

(** [destination_group] of the module [config]. *)
Variable destination_group : Z.
(** The prompt and the text-generation call, as in [process_with_llm]. *)
Variable generate : string -> llm_outcome.

(** The body of the [try] of [message_handler]. *)
Definition handler_body (ev : event) : M unit :=
  let message := ev_message ev in
  let message_text := raw_text message in
  c <- await (get_chat ev) ;;
  log INFO ("Received message from source group: " ++ title c
            ++ " (ID: " ++ int_str (chat_id c) ++ ")") ;;
  if (message_text =? "")%string then
    log DEBUG "Skipping empty message"
  else
    let '(is_valid, reason, formatted_message) :=
      process_with_llm generate message_text in
    if negb is_valid then
      log DEBUG ("Skipping invalid trading message: " ++ opt_str reason)
    else if truthy formatted_message then
      client_call (SendMessage destination_group
                               (opt_str formatted_message) false) ;;
      log INFO ("Successfully processed and forwarded trading message:" ++ NL
                ++ "Original:" ++ NL ++ message_text ++ NL ++ NL
                ++ "Formatted:" ++ NL ++ opt_str formatted_message)
    else
      log WARNING formatting_failed ;;
      client_call (ForwardMessages destination_group message).

(** The [except] clause of [message_handler]. *)
Definition fallback (ev : event) (e : string) : M unit :=
  log ERROR ("Error processing message: " ++ e) ;;
  try_except
    (client_call (ForwardMessages destination_group (ev_message ev)) ;;
     log INFO "Forwarded original message as fallback")
    (fun forward_error =>
       log ERROR ("Failed to forward original message: " ++ forward_error)).

Definition message_handler (ev : event) : M unit :=
  try_except (handler_body ev) (fallback ev).

End Handler.

(** The calls of the client among the actions. *)
Definition is_send (a : action) : bool :=
  match a with SendMessage _ _ _ => true | _ => false end.

Definition is_forward (a : action) : bool :=
  match a with ForwardMessages _ _ => true | _ => false end.

(** The first log of the handler, once the chat is known. *)
Definition received (c : chat) : action :=
  Log INFO ("Received message from source group: " ++ title c
            ++ " (ID: " ++ int_str (chat_id c) ++ ")").

(** A run of a computation from an empty log: the actions it performs and
    how it ends. *)
Definition run {A} (m : M A) (outcomes : list (option string))
  : list action * (string + A) :=
  let (st, r) := m {| script := outcomes; trace := [] |} in (trace st, r).

End Relay.

(** ** The start of the bot, [src/bot.py] *)

Module Bot.

(** The exceptions of class [Exception] that [main] tells apart:
    [SessionPasswordNeededError] of Telethon, and every other one; each is
    kept with its [str]. *)
Inductive exn :=
| SessionPasswordNeededError (msg : string)
| OtherError (msg : string).

Definition exn_str (e : exn) : string :=
  match e with
  | SessionPasswordNeededError msg => msg
  | OtherError msg => msg
  end.

(** What [main] does to the outside: a call of the logger, a call of the
    client, or the registration of the handlers. *)
Inductive action :=
| Log (lvl : Relay.level) (msg : string)
| IsUserAuthorized
| SendCodeRequest (phone : string)
| SignIn (phone : string)
| RegisterHandlers
| RunUntilDisconnected.

(** The client as [main] meets it: what each call comes to.  [main] makes
    each of them once at most. *)
Record client := {
  is_user_authorized : exn + bool;
  send_code_request : option exn;
  sign_in : option exn;
  run_until_disconnected : option exn
}.

(** A computation appends to the actions done so far and returns a value or
    raises. *)
Definition M (A : Type) : Type := list action -> list action * (exn + A).

Definition ret {A} (a : A) : M A := fun tr => (tr, inr a).

Definition raise {A} (e : exn) : M A := fun tr => (tr, inl e).

Definition bind {A B} (m : M A) (f : A -> M B) : M B :=
  fun tr =>
    match m tr with
    | (tr', inr a) => f a tr'
    | (tr', inl e) => (tr', inl e)
    end.

(** [try: m  except Exception as e: h e]. *)
Definition try_except {A} (m : M A) (h : exn -> M A) : M A :=
  fun tr =>
    match m tr with
    | (tr', inr a) => (tr', inr a)
    | (tr', inl e) => h e tr'
    end.

(** [try: m  except SessionPasswordNeededError: h]. *)
Definition try_except_password {A} (m : M A) (h : M A) : M A :=
  fun tr =>
    match m tr with
    | (tr', inl (SessionPasswordNeededError _)) => h tr'
    | r => r
    end.

#[local] Notation "x <- m ;; k" := (bind m (fun x => k))
  (at level 61, m at next level, right associativity).
#[local] Notation "m ;; k" := (bind m (fun _ => k))
  (at level 61, right associativity).

Definition log (lvl : Relay.level) (msg : string) : M unit :=
  fun tr => ((tr ++ [Log lvl msg])%list, inr tt).

(** A call of the client that returns a value. *)
Definition call {A} (a : action) (r : exn + A) : M A :=
  fun tr => ((tr ++ [a])%list, r).

(** A call of the client that returns nothing. *)
Definition call_unit (a : action) (r : option exn) : M unit :=
  call a (match r with Some e => inl e | None => inr tt end).

Section Main.

(** [phone] of the module [config]. *)
Variable phone : string.
(** What [f"{source_groups}"] gives for [source_groups] of the module
    [config]. *)
Variable source_groups_str : string.

Variable c : client.

(** The sign-in of [main]: [true] when [main] goes on, [false] when it
    returns because two-step verification is enabled. *)
Definition sign_in_if_needed : M bool :=
  authorized <- call IsUserAuthorized (is_user_authorized c) ;;
  if negb authorized then
    call_unit (SendCodeRequest phone) (send_code_request c) ;;
    log Relay.INFO "Please check your Telegram account for the login code." ;;
    try_except_password
      (call_unit (SignIn phone) (sign_in c) ;; ret true)
      (log Relay.ERROR "Two-step verification is enabled. Please disable it or implement password handling." ;;
       ret false)
  else ret true.

(** [main]. *)
Definition main : M unit :=
  try_except
    (go_on <- sign_in_if_needed ;;
     if go_on then
       log Relay.INFO ("Monitoring the following source groups: "
                 ++ source_groups_str) ;;
       call_unit RegisterHandlers None ;;
       log Relay.INFO "Bot started successfully. Listening for messages..." ;;
       call_unit RunUntilDisconnected (run_until_disconnected c)
     else ret tt)
    (fun e =>
       log Relay.ERROR ("Critical error: " ++ exn_str e) ;;
       raise e).

End Main.

(** The actions before the first [RunUntilDisconnected]. *)
Fixpoint before_run (tr : list action) : list action :=
  match tr with
  | [] => []
  | RunUntilDisconnected :: _ => []
  | a :: t => a :: before_run t
  end.

End Bot.

(** * Properties *)

(** ** Facts on the string operations *)

Section StringFacts.

Import PyStr.

Lemma split_not_nil (c : ascii) (s : string) : split c s <> [].
Proof.
  destruct s as [|a r]; simpl; [discriminate|].
  destruct (a =? c)%char; [discriminate|].
  destruct (split c r); discriminate.
Qed.

Lemma concat_cons_char (sep : string) (a : ascii) (h : string)
    (t : list string) :
  String.concat sep (String a h :: t) = String a (String.concat sep (h :: t)).
Proof. destruct t; reflexivity. Qed.

(** Joining the pieces of a split with the separator gives the string
    back. *)
Lemma join_split (c : ascii) (s : string) :
  join (String c "") (split c s) = s.
Proof.
  unfold join. induction s as [|a r IH]; simpl; [reflexivity|].
  destruct (Ascii.eqb_spec a c) as [->|Hne].
  - pose proof (split_not_nil c r) as Hnil.
    destruct (split c r) as [|h t]; [contradiction|].
    simpl in *. now rewrite IH.
  - pose proof (split_not_nil c r) as Hnil.
    destruct (split c r) as [|h t]; [contradiction|].
    rewrite concat_cons_char. now rewrite IH.
Qed.

Lemma append_char_not_empty (a b : string) (c : ascii) :
  a ++ String c b <> "".
Proof. destruct a; discriminate. Qed.

Lemma space_not_numch (c : ascii) : is_space c = true -> is_numch c = false.
Proof.
  destruct c as [[] [] [] [] [] [] [] []]; vm_compute; congruence.
Qed.

Lemma findall_from_rstrip (s cur : string) :
  findall_from cur (rstrip s) = findall_from cur s.
Proof.
  revert cur. induction s as [|a r IH]; intros cur; [reflexivity|].
  simpl. destruct (rstrip r) as [|b r'] eqn:E.
  - destruct (is_space a) eqn:Hs.
    + rewrite (space_not_numch _ Hs). rewrite <- (IH "").
      destruct cur; reflexivity.
    + simpl. destruct (is_numch a).
      * now rewrite <- IH.
      * now rewrite <- (IH "").
  - change (findall_from cur (String a (String b r')))
      with (if is_numch a then findall_from (String a cur) (String b r')
            else match cur with
                 | "" => findall_from "" (String b r')
                 | _ => rev_acc cur "" :: findall_from "" (String b r')
                 end).
    now rewrite !IH.
Qed.

Lemma findall_lstrip (s : string) :
  findall_numbers (lstrip s) = findall_numbers s.
Proof.
  unfold findall_numbers. induction s as [|a r IH]; [reflexivity|].
  simpl. destruct (is_space a) eqn:Hs; [|reflexivity].
  now rewrite (space_not_numch _ Hs).
Qed.

(** The scan does not see the whitespace that [strip] removes. *)
Lemma findall_strip (s : string) :
  findall_numbers (strip s) = findall_numbers s.
Proof.
  transitivity (findall_numbers (lstrip s)).
  - apply findall_from_rstrip.
  - apply findall_lstrip.
Qed.

Lemma rev_acc_not_empty (s acc : string) (c : ascii) :
  rev_acc s (String c acc) <> "".
Proof.
  revert c acc. induction s as [|a r IH]; intros c acc; simpl;
    [discriminate | apply IH].
Qed.

Lemma rev_acc_numch (s acc : string) :
  all_numch s = true -> all_numch acc = true ->
  all_numch (rev_acc s acc) = true.
Proof.
  revert acc. induction s as [|a r IH]; intros acc Hs Hacc; simpl in *;
    [exact Hacc|].
  apply andb_prop in Hs. destruct Hs as [Ha Hr].
  apply IH; [exact Hr|]. simpl. now rewrite Ha.
Qed.

Lemma findall_from_tokens (s cur t : string) :
  all_numch cur = true -> In t (findall_from cur s) ->
  t <> "" /\ all_numch t = true.
Proof.
  revert cur. induction s as [|a r IH]; intros cur Hcur Hin; simpl in Hin.
  - destruct cur as [|c cur']; [contradiction|].
    destruct Hin as [<-|[]]. split.
    + apply rev_acc_not_empty.
    + now apply rev_acc_numch.
  - destruct (is_numch a) eqn:Ha.
    + apply (IH (String a cur)); [simpl; now rewrite Ha | exact Hin].
    + destruct cur as [|c cur'].
      * now apply (IH "").
      * destruct Hin as [<-|Hin].
        -- split; [apply rev_acc_not_empty | now apply rev_acc_numch].
        -- now apply (IH "").
Qed.

(** Each string that the scan returns is a run of digits and dots with at
    least one character: [float] is only ever called on such strings. *)
Lemma findall_numbers_tokens (s t : string) :
  In t (findall_numbers s) -> t <> "" /\ all_numch t = true.
Proof. now apply findall_from_tokens. Qed.

Lemma startswith_entry (line : string) :
  startswith "Entry:" line = true -> exists rest, line = "Entry:" ++ rest.
Proof.
  unfold startswith. intros H.
  do 6 (destruct line as [|? line]; [discriminate|];
        simpl in H;
        match type of H with
        | (if ?d then _ else _) = _ => destruct d; [subst|discriminate]
        end).
  now exists line.
Qed.

End StringFacts.

(** ** The float model on known values *)

Section FloatChecks.

Import PyFloat.

Example float_shortest_repr :
  map shown ["0.1"; "2934.88"; "0.30000000000000004"; "9007199254740993"]
  = [Some "0.1"; Some "2934.88"; Some "0.30000000000000004";
     Some "9007199254740992.0"].
Proof. vm_compute. reflexivity. Qed.

Example float_integer_gets_fraction :
  map shown ["1"; "2343"; "5."; ".5"; "000"]
  = [Some "1.0"; Some "2343.0"; Some "5.0"; Some "0.5"; Some "0.0"].
Proof. vm_compute. reflexivity. Qed.

Example float_exponent_layout :
  map shown ["1000000000000000"; "10000000000000000"; "0.0001"; "0.00001";
             "0.000012345"]
  = [Some "1000000000000000.0"; Some "1e+16"; Some "0.0001"; Some "1e-05";
     Some "1.2345e-05"].
Proof. vm_compute. reflexivity. Qed.

Example float_value_error :
  map shown [""; "."; "1.2.3"; ".."] = [None; None; None; None].
Proof. vm_compute. reflexivity. Qed.

End FloatChecks.

(** ** The price range *)

Section PriceRange.

Import PyStr Normalizer.

Lemma float_ltb_le (a b : PyFloat.float) :
  PyFloat.ltb a b = true -> PyFloat.le a b.
Proof.
  destruct a, b; simpl; try easy.
  intros H. apply Z.ltb_lt in H. lia.
Qed.

Lemma float_not_ltb_le (a b : PyFloat.float) :
  PyFloat.ltb b a = false -> PyFloat.le a b.
Proof.
  destruct a, b; simpl; try easy.
  intros H. apply Z.ltb_ge in H. exact H.
Qed.

Lemma float_le_refl (a : PyFloat.float) : PyFloat.le a a.
Proof. destruct a; simpl; [lia|exact I]. Qed.

Lemma float_min_le_max (a b : PyFloat.float) :
  PyFloat.le (PyFloat.min a b) (PyFloat.max a b).
Proof.
  unfold PyFloat.min, PyFloat.max.
  destruct (PyFloat.ltb b a) eqn:Hba, (PyFloat.ltb a b) eqn:Hab.
  - apply float_le_refl.
  - now apply float_ltb_le.
  - now apply float_ltb_le.
  - apply float_le_refl.
Qed.

Lemma sort_price_range_pair (s : string) (a b : PyFloat.float) :
  scanned_pair s = Some (a, b) ->
  sort_price_range s =
    PyFloat.float_str (PyFloat.min a b) ++ " - "
    ++ PyFloat.float_str (PyFloat.max a b).
Proof.
  unfold scanned_pair, sort_price_range.
  destruct (findall_numbers s) as [|t1 [|t2 [|t3 ts]]]; try discriminate.
  destruct (PyFloat.float_of_token t1), (PyFloat.float_of_token t2);
    try discriminate.
  now intros [= -> ->].
Qed.

Lemma sort_price_range_none (s : string) :
  scanned_pair s = None -> sort_price_range s = s.
Proof.
  unfold scanned_pair, sort_price_range.
  destruct (findall_numbers s) as [|t1 [|t2 [|t3 ts]]]; try reflexivity.
  destruct (PyFloat.float_of_token t1), (PyFloat.float_of_token t2);
    try reflexivity; discriminate.
Qed.

(** The scan of a line that opens with ["Entry: "] is the scan of the
    stripped remainder, the string handed to [sort_price_range]. *)
Lemma scanned_pair_entry (rest : string) :
  scanned_pair (strip rest) = scanned_pair ("Entry: " ++ rest).
Proof.
  unfold scanned_pair. rewrite findall_strip. reflexivity.
Qed.

Lemma format_line_entry (rest : string) :
  contains " - " ("Entry: " ++ rest) = true ->
  format_line ("Entry: " ++ rest) = "Entry: " ++ sort_price_range (strip rest).
Proof.
  intros H. unfold format_line. rewrite H. reflexivity.
Qed.

(** The loop body on any line that begins with ["Entry:"] and contains
    [" - "]: the prefix is ["Entry: "], seven characters long. *)
Lemma format_line_entry_any (line : string) :
  startswith "Entry:" line = true ->
  contains " - " line = true ->
  format_line line = "Entry: " ++ sort_price_range (strip (drop 7 line)).
Proof.
  intros Hs Hc. unfold format_line. rewrite Hs, Hc.
  destruct (startswith_entry _ Hs) as [rest ->]. reflexivity.
Qed.

Lemma format_line_other (line : string) :
  startswith "Entry:" line = false -> format_line line = line.
Proof. intros H. unfold format_line. now rewrite H. Qed.

Lemma format_final_response_at (text : string) (pre post : list string)
    (line : string) :
  split nl text = (pre ++ line :: post)%list ->
  format_final_response text =
    join NL (map format_line pre ++ format_line line :: map format_line post)%list.
Proof.
  intros H. unfold format_final_response. rewrite H, map_app. reflexivity.
Qed.

End PriceRange.

(** ** Claims on the normalization of Entry lines *)

Section EntryLines.

Import PyStr Normalizer.

(** C1, as amended.  In a text one of whose lines opens with ["Entry: "],
    contains [" - "] and holds exactly two runs of digits and dots that read
    as the numbers [a] and [b] (a sign is not part of a run), the
    post-processing rewrites that line as ["Entry: "], the lower of [a] and
    [b], [" - "] and the higher, each written by the float formatting of the
    code; the other lines go through the same loop body. *)
Theorem entry_line_rewritten_low_high (text : string) (pre post : list string)
    (rest : string) (a b : PyFloat.float) :
  split nl text = (pre ++ ("Entry: " ++ rest)%string :: post)%list ->
  contains " - " ("Entry: " ++ rest) = true ->
  scanned_pair ("Entry: " ++ rest) = Some (a, b) ->
  format_final_response text =
    join NL (map format_line pre
             ++ ("Entry: " ++ PyFloat.float_str (PyFloat.min a b) ++ " - "
                 ++ PyFloat.float_str (PyFloat.max a b))%string
             :: map format_line post)%list.
Proof.
  intros Hsplit Hdash Hpair.
  rewrite (format_final_response_at _ _ _ _ Hsplit).
  rewrite (format_line_entry _ Hdash).
  rewrite <- scanned_pair_entry in Hpair.
  now rewrite (sort_price_range_pair _ _ _ Hpair).
Qed.

(** A block of three lines whose Entry line holds 2934.88 and 2930.88. *)
Lemma entry_line_rewritten_low_high_witness :
  let text := "Asset: GOLD" ++ NL ++ "Entry: 2934.88 - 2930.88" ++ NL
              ++ "Stop Loss: 2926.88" in
  let a := PyFloat.round_binary64 293488 100 in
  let b := PyFloat.round_binary64 293088 100 in
  split nl text
    = (["Asset: GOLD"] ++ ("Entry: " ++ "2934.88 - 2930.88")%string
       :: ["Stop Loss: 2926.88"])%list
  /\ contains " - " ("Entry: " ++ "2934.88 - 2930.88") = true
  /\ scanned_pair ("Entry: " ++ "2934.88 - 2930.88") = Some (a, b)
  /\ format_final_response text
     = "Asset: GOLD" ++ NL ++ "Entry: 2930.88 - 2934.88" ++ NL
       ++ "Stop Loss: 2926.88".
Proof.
  intros text a b.
  assert (H1 : split nl text
               = (["Asset: GOLD"] ++ ("Entry: " ++ "2934.88 - 2930.88")%string
                  :: ["Stop Loss: 2926.88"])%list) by reflexivity.
  assert (H2 : contains " - " ("Entry: " ++ "2934.88 - 2930.88") = true)
    by reflexivity.
  assert (H3 : scanned_pair ("Entry: " ++ "2934.88 - 2930.88") = Some (a, b))
    by (vm_compute; reflexivity).
  split; [exact H1|]. split; [exact H2|]. split; [exact H3|].
  rewrite (entry_line_rewritten_low_high text _ _ _ a b H1 H2 H3).
  vm_compute. reflexivity.
Defined.

(** C1, counterexample.  The line ["Entry: -5 - 3"] holds the range of the
    numbers -5 and 3; the scan drops the sign, and the line comes out as
    ["Entry: 3.0 - 5.0"], whose first number is not the lower of -5 and 3. *)
Lemma signed_entry_line_loses_sign :
  startswith "Entry:" "Entry: -5 - 3" = true
  /\ findall_numbers "Entry: -5 - 3" = ["5"; "3"]
  /\ format_final_response "Entry: -5 - 3" = "Entry: 3.0 - 5.0".
Proof. vm_compute. repeat split. Qed.

(** C3.  The code does not keep the normalized line ["Entry: 1 - 2"]: both
    numbers go through [float] and come back with a fractional part, as does
    the example of the docstring of [sort_price_range]. *)
Theorem entry_1_2_gains_fraction :
  format_final_response "Entry: 1 - 2" = "Entry: 1.0 - 2.0"
  /\ sort_price_range "2343 - 1234" = "1234.0 - 2343.0".
Proof. vm_compute. split; reflexivity. Qed.

(** C4, as amended.  In a text one of whose lines opens with ["Entry: "] and
    contains [" - "], but does not hold exactly two runs of digits and dots
    that both read as numbers, the post-processing writes that line as
    ["Entry: "] followed by the rest of the line without its surrounding
    whitespace, so the line is kept character for character when the rest
    neither starts nor ends with whitespace; the result is a string in every
    case. *)
Theorem unparsed_entry_line_kept (text : string) (pre post : list string)
    (rest : string) :
  split nl text = (pre ++ ("Entry: " ++ rest)%string :: post)%list ->
  contains " - " ("Entry: " ++ rest) = true ->
  scanned_pair ("Entry: " ++ rest) = None ->
  format_final_response text =
    join NL (map format_line pre ++ ("Entry: " ++ strip rest)%string
             :: map format_line post)%list
  /\ (strip rest = rest ->
      format_final_response text =
        join NL (map format_line pre ++ ("Entry: " ++ rest)%string
                 :: map format_line post)%list).
Proof.
  intros Hsplit Hdash Hpair.
  assert (E : format_final_response text =
    join NL (map format_line pre ++ ("Entry: " ++ strip rest)%string
             :: map format_line post)%list).
  { rewrite (format_final_response_at _ _ _ _ Hsplit).
    rewrite (format_line_entry _ Hdash).
    rewrite <- scanned_pair_entry in Hpair.
    now rewrite (sort_price_range_none _ Hpair). }
  split; [exact E|].
  intros Hs. rewrite E. now rewrite Hs.
Qed.

(** An Entry line that holds three numbers, with no whitespace around them. *)
Lemma unparsed_entry_line_kept_witness :
  let text := "Entry: 1 - 2 - 3" ++ NL ++ "Stop Loss: 0.5" in
  split nl text
    = ([] ++ ("Entry: " ++ "1 - 2 - 3")%string :: ["Stop Loss: 0.5"])%list
  /\ contains " - " ("Entry: " ++ "1 - 2 - 3") = true
  /\ scanned_pair ("Entry: " ++ "1 - 2 - 3") = None
  /\ format_final_response text = text.
Proof.
  intros text.
  assert (H1 : split nl text
               = ([] ++ ("Entry: " ++ "1 - 2 - 3")%string
                  :: ["Stop Loss: 0.5"])%list) by reflexivity.
  assert (H2 : contains " - " ("Entry: " ++ "1 - 2 - 3") = true)
    by reflexivity.
  assert (H3 : scanned_pair ("Entry: " ++ "1 - 2 - 3") = None)
    by reflexivity.
  split; [exact H1|]. split; [exact H2|]. split; [exact H3|].
  rewrite (proj2 (unparsed_entry_line_kept text _ _ _ H1 H2 H3) eq_refl).
  reflexivity.
Defined.

(** C4, counterexample.  The line ["Entry: 1 - 2 - 3 "], with a space at its
    end, opens with ["Entry:"], contains [" - "] and holds three numbers; it
    comes out without its last character. *)
Lemma trailing_space_entry_line_changed :
  startswith "Entry:" "Entry: 1 - 2 - 3 " = true
  /\ contains " - " "Entry: 1 - 2 - 3 " = true
  /\ findall_numbers "Entry: 1 - 2 - 3 " = ["1"; "2"; "3"]
  /\ format_final_response "Entry: 1 - 2 - 3 " = "Entry: 1 - 2 - 3"
  /\ format_final_response "Entry: 1 - 2 - 3 " <> "Entry: 1 - 2 - 3 ".
Proof. vm_compute. repeat split. discriminate. Qed.

(** C5.  Whenever [sort_price_range] reads two numbers it writes the lower
    one first: the range it returns is made of two floats [low] and [high]
    with [low <= high]; in every other case it returns its argument. *)
Theorem sorted_range_low_le_high (s : string) :
  match scanned_pair s with
  | Some (a, b) =>
      sort_price_range s =
        PyFloat.float_str (PyFloat.min a b) ++ " - "
        ++ PyFloat.float_str (PyFloat.max a b)
      /\ PyFloat.le (PyFloat.min a b) (PyFloat.max a b)
  | None => sort_price_range s = s
  end.
Proof.
  destruct (scanned_pair s) as [[a b]|] eqn:E.
  - split; [now apply sort_price_range_pair | apply float_min_le_max].
  - now apply sort_price_range_none.
Qed.

(** C6.  A format block none of whose lines begins with ["Entry:"] comes out
    of the post-processing as it went in. *)
Theorem no_entry_line_unchanged (text : string) :
  (forall l, In l (split nl text) -> startswith "Entry:" l = false) ->
  format_final_response text = text.
Proof.
  intros H. unfold format_final_response.
  rewrite (map_ext_in format_line (fun l => l)).
  - rewrite map_id. apply join_split.
  - intros l Hl. apply format_line_other. now apply H.
Qed.

(** A block of two lines, neither of which is an Entry line. *)
Lemma no_entry_line_unchanged_witness :
  let text := "Asset: GOLD" ++ NL ++ "Type: BUY 1 - 2" in
  (forall l, In l (split nl text) -> startswith "Entry:" l = false)
  /\ format_final_response text = text.
Proof.
  intros text.
  assert (H : forall l, In l (split nl text) -> startswith "Entry:" l = false).
  { intros l [<-|[<-|[]]]; reflexivity. }
  split; [exact H|].
  exact (no_entry_line_unchanged text H).
Defined.

(** C8.  The block ["Entry: 2934.88 - 2930.88\nStop Loss: 2926.88"] comes out
    as ["Entry: 2930.88 - 2934.88\nStop Loss: 2926.88"]. *)
Theorem end_to_end_example :
  format_final_response
    ("Entry: 2934.88 - 2930.88" ++ NL ++ "Stop Loss: 2926.88")
  = "Entry: 2930.88 - 2934.88" ++ NL ++ "Stop Loss: 2926.88".
Proof. vm_compute. reflexivity. Qed.

End EntryLines.

(** ** Claims on [process_with_llm] *)

Section ProcessWithLlm.

Import PyStr Normalizer.

Lemma first_startswith_found (p : string) (ls : list string) :
  first_startswith p ls <> "" ->
  startswith p (first_startswith p ls) = true.
Proof.
  unfold first_startswith. destruct (find (startswith p) ls) eqn:E.
  - intros _. now apply find_some in E.
  - congruence.
Qed.

Lemma first_startswith_absent (p : string) (ls : list string) :
  (forall l, In l ls -> startswith p l = false) ->
  first_startswith p ls = "".
Proof.
  intros H. unfold first_startswith.
  destruct (find (startswith p) ls) eqn:E; [|reflexivity].
  apply find_some in E. destruct E as [Hin Hp].
  rewrite (H _ Hin) in Hp. discriminate.
Qed.

(** A line that begins with ["REASON:"] has a colon: the subscript [[1]]
    of its split is in range. *)
Lemma after_first_reason (l : string) :
  startswith "REASON:" l = true -> exists r, after_first ":" l = Some r.
Proof.
  unfold startswith. intros H.
  do 7 (destruct l as [|? l]; [discriminate|];
        simpl in H;
        match type of H with
        | (if ?d then _ else _) = _ => destruct d; [subst|discriminate]
        end).
  now exists l.
Qed.

(** The paths of [process_with_llm] for a response that is not empty. *)
Lemma parse_response_paths (text : string) :
  (text =? "")%string = false ->
  exists reason,
    parse_response text =
      let sections := split nl (strip text) in
      if negb (contains "true" (lower (first_startswith "VALID:" sections)))
      then inr (false, reason, None)
      else match index "FORMAT:" sections with
           | None => inl format_not_in_list
           | Some i =>
               let format_section :=
                 strip (join NL (skipn (i + 1) sections)) in
               if (format_section =? "")%string
                  || (format_section =? "None")%string
               then inr (false, Some "Failed to format message", None)
               else inr (true, None,
                         Some (format_final_response format_section))
           end.
Proof.
  intros Ht. unfold parse_response. rewrite Ht. cbv zeta.
  destruct (first_startswith "REASON:" (split nl (strip text)) =? "")%string
    eqn:Er.
  - exists None. reflexivity.
  - apply String.eqb_neq in Er.
    destruct (after_first_reason _ (first_startswith_found _ _ Er)) as [r Hr].
    rewrite Hr. exists (Some (strip r)). reflexivity.
Qed.

Lemma format_line_not_empty (l : string) : l <> "" -> format_line l <> "".
Proof.
  intros Hl. unfold format_line.
  destruct (startswith "Entry:" l && contains " - " l); [|exact Hl].
  destruct (hd "" (split ":" l)); discriminate.
Qed.

(** The post-processing of a block that is not empty is not empty. *)
Lemma format_final_response_not_empty (s : string) :
  s <> "" -> format_final_response s <> "".
Proof.
  intros Hs. unfold format_final_response.
  pose proof (join_split nl s) as Hj. fold NL in Hj.
  destruct (split nl s) as [|l1 [|l2 t]] eqn:E.
  - now apply split_not_nil in E.
  - simpl in *. subst. now apply format_line_not_empty.
  - unfold join. simpl. apply append_char_not_empty.
Qed.

End ProcessWithLlm.

Section ProcessClaims.

Import PyStr Normalizer.

Variable generate : string -> llm_outcome.

Lemma process_outcome_valid (o : llm_outcome) (reason formatted : option string) :
  process_outcome o = (true, reason, formatted) ->
  reason = None /\ exists s, formatted = Some s /\ s <> "".
Proof.
  destruct o as [msg|text]; simpl; [discriminate|].
  destruct (text =? "")%string eqn:Et.
  - unfold parse_response. rewrite Et. discriminate.
  - destruct (parse_response_paths text Et) as [r Hp]. rewrite Hp. cbv zeta.
    destruct (negb _); [discriminate|].
    destruct (index "FORMAT:" _) as [i|]; [|discriminate].
    destruct (_ || _) eqn:Eb; [discriminate|].
    intros [= <- <-]. split; [reflexivity|].
    eexists. split; [reflexivity|].
    apply format_final_response_not_empty. intros H0.
    rewrite H0 in Eb. discriminate.
Qed.

(** C2, as amended.  The lines are those of the response once its
    surrounding whitespace is stripped, as [process_with_llm] splits them.
    For a response whose first line beginning with ["VALID:"] holds "true":
    when one of these lines is exactly ["FORMAT:"] and what follows the
    first such line is empty or ["None"] once stripped, [process_with_llm]
    returns [isValid=false] with the reason ["Failed to format message"]
    and no formatted text; when none of these lines is exactly ["FORMAT:"],
    it returns [isValid=false] and no formatted text, with the description
    of the exception that was caught as its reason. *)
Theorem valid_without_format_block (message_text text : string) :
  generate message_text = Responded text ->
  contains "true"
    (lower (first_startswith "VALID:" (split nl (strip text)))) = true ->
  (forall i,
      index "FORMAT:" (split nl (strip text)) = Some i ->
      strip (join NL (skipn (i + 1) (split nl (strip text)))) = ""
      \/ strip (join NL (skipn (i + 1) (split nl (strip text)))) = "None" ->
      process_with_llm generate message_text
      = (false, Some "Failed to format message", None))
  /\ (index "FORMAT:" (split nl (strip text)) = None ->
      process_with_llm generate message_text
      = (false, Some ("Error processing message: " ++ format_not_in_list),
         None)).
Proof.
  intros Hg Hvalid. unfold process_with_llm. rewrite Hg. simpl.
  destruct (text =? "")%string eqn:Et.
  { apply String.eqb_eq in Et. subst text. discriminate Hvalid. }
  destruct (parse_response_paths text Et) as [r Hp]. rewrite Hp. cbv zeta.
  rewrite Hvalid. simpl. split.
  - intros i Hi Hblock. rewrite Hi.
    destruct Hblock as [-> | ->]; reflexivity.
  - intros Hi. rewrite Hi. reflexivity.
Qed.

(** C7, as amended.  For a response none of whose lines begins with
    ["VALID:"] once the surrounding whitespace of the response is stripped,
    which [process_with_llm] does before it splits the lines, the result
    has [isValid=false] (and no formatted text). *)
Theorem no_valid_line_invalid (message_text text : string) :
  generate message_text = Responded text ->
  (forall l, In l (split nl (strip text)) -> startswith "VALID:" l = false) ->
  exists reason, process_with_llm generate message_text = (false, reason, None).
Proof.
  intros Hg Hno. unfold process_with_llm. rewrite Hg. simpl.
  destruct (text =? "")%string eqn:Et.
  - unfold parse_response. rewrite Et. eexists. reflexivity.
  - destruct (parse_response_paths text Et) as [r Hp]. rewrite Hp. cbv zeta.
    rewrite (first_startswith_absent _ _ Hno). simpl.
    exists r. reflexivity.
Qed.

End ProcessClaims.

(** A valid response whose format block is ["None"]. *)
Lemma valid_without_format_block_witness :
  let generate := fun _ : string =>
    Normalizer.Responded
      ("VALID: true" ++ PyStr.NL ++ "REASON: Valid trading signal" ++ PyStr.NL
       ++ "FORMAT:" ++ PyStr.NL ++ "None") in
  Normalizer.process_with_llm generate "buy gold"
  = (false, Some "Failed to format message", None).
Proof.
  intros generate.
  refine (proj1 (valid_without_format_block generate "buy gold" _
                   eq_refl eq_refl) 2%nat eq_refl _).
  right. reflexivity.
Defined.

(** C2, counterexample.  The response ["VALID: true\nREASON: Valid trading
    signal"] has a positive validity line and no ["FORMAT:"] section; the
    reason returned is not ["Failed to format message"]. *)
Lemma valid_without_format_marker :
  Normalizer.process_with_llm
    (fun _ => Normalizer.Responded
                ("VALID: true" ++ PyStr.NL ++ "REASON: Valid trading signal"))
    "buy gold"
  = (false, Some "Error processing message: 'FORMAT:' is not in list", None).
Proof. reflexivity. Qed.

(** A response that opens with its reason line. *)
Lemma no_valid_line_invalid_witness :
  let generate := fun _ : string =>
    Normalizer.Responded
      ("REASON: Valid trading signal" ++ PyStr.NL ++ "FORMAT:" ++ PyStr.NL
       ++ "Asset: GOLD") in
  (forall l,
      In l (PyStr.split PyStr.nl
              (PyStr.strip ("REASON: Valid trading signal" ++ PyStr.NL
                            ++ "FORMAT:" ++ PyStr.NL ++ "Asset: GOLD"))) ->
      PyStr.startswith "VALID:" l = false)
  /\ exists reason,
      Normalizer.process_with_llm generate "buy gold" = (false, reason, None).
Proof.
  intros generate.
  assert (H : forall l,
      In l (PyStr.split PyStr.nl
              (PyStr.strip ("REASON: Valid trading signal" ++ PyStr.NL
                            ++ "FORMAT:" ++ PyStr.NL ++ "Asset: GOLD"))) ->
      PyStr.startswith "VALID:" l = false).
  { intros l [<-|[<-|[<-|[]]]]; reflexivity. }
  split; [exact H|].
  exact (no_valid_line_invalid generate "buy gold" _ eq_refl H).
Defined.

(** ** Claims on the relay *)

Section RelayClaims.

Import PyStr Normalizer Relay.

Variable destination_group : Z.
Variable generate : string -> llm_outcome.

Lemma valid_result_truthy (message_text : string)
    (reason formatted : option string) :
  process_with_llm generate message_text = (true, reason, formatted) ->
  truthy formatted = true.
Proof.
  intros H. apply process_outcome_valid in H.
  destruct H as [_ [s [-> Hs]]]. simpl.
  apply String.eqb_neq in Hs. now rewrite Hs.
Qed.

(** The fallback never lets an exception through. *)
Lemma fallback_returns (ev : event) (e : string) (st : state) :
  snd (fallback destination_group ev e st) = inr tt.
Proof.
  unfold fallback, bind, try_except, log, client_call. simpl.
  destruct (script st) as [|[fe|] rest]; reflexivity.
Qed.

(** No exception leaves [message_handler]. *)
Lemma message_handler_returns (ev : event) (st : state) :
  snd (message_handler destination_group generate ev st) = inr tt.
Proof.
  unfold message_handler, try_except.
  destruct (handler_body destination_group generate ev st) as [st1 [e|[]]].
  - apply fallback_returns.
  - reflexivity.
Qed.

(** C9, as amended.  When an exception of class [Exception] is raised in
    the body of the [try] of the handler, by the fetch of the chat, by the
    send or by a forward (an exception of the text generation is caught
    inside [process_with_llm] and never gets there), then, whatever the body
    had done, the handler logs the error, calls [forward_messages] once
    with the destination and the message of the event, and logs how that
    went: the success, or the failure of the forward; then it returns,
    without an exception and without another call of the client. *)
Theorem fallback_forwards_once (ev : event) (st st1 : state) (e : string) :
  handler_body destination_group generate ev st = (st1, inl e) ->
  message_handler destination_group generate ev st =
    ({| script := tl (script st1);
        trace := trace st1 ++
          [ Log ERROR ("Error processing message: " ++ e);
            ForwardMessages destination_group (ev_message ev);
            match script st1 with
            | Some forward_error :: _ =>
                Log ERROR ("Failed to forward original message: "
                           ++ forward_error)
            | _ => Log INFO "Forwarded original message as fallback"
            end ] |},
     inr tt).
Proof.
  intros H. unfold message_handler, try_except. rewrite H.
  unfold fallback, bind, try_except, log, client_call. simpl.
  destruct (script st1) as [|[fe|] rest]; simpl;
    now rewrite <- !app_assoc.
Qed.

Lemma handler_never_warns (ev : event) (outcomes : list (option string)) :
  ~ In (Log WARNING formatting_failed)
       (fst (run (message_handler destination_group generate ev) outcomes)).
Proof.
  unfold run, message_handler, try_except,
    handler_body, fallback, bind, try_except, await, log, client_call.
  destruct (get_chat ev) as [e|c]; simpl.
  - destruct outcomes as [|[fe|] rest]; simpl; intuition discriminate.
  - destruct (raw_text (ev_message ev) =? "")%string; simpl.
    + intuition discriminate.
    + destruct (process_with_llm generate (raw_text (ev_message ev)))
        as [[v r] f] eqn:E.
      destruct v; simpl.
      * rewrite (valid_result_truthy _ _ _ E). simpl.
        destruct outcomes as [|[fe|] [|[fe'|] rest]]; simpl;
          intuition discriminate.
      * intuition discriminate.
Qed.

(** C10.  A result of [process_with_llm] with [isValid=true] has no reason
    and a formatted text that is not empty; the handler, which calls
    [process_with_llm], therefore never reaches the branch that warns that
    the formatting failed and forwards the original message. *)
Theorem valid_result_carries_text (message_text : string)
    (reason formatted : option string) :
  process_with_llm generate message_text = (true, reason, formatted) ->
  reason = None
  /\ (exists s, formatted = Some s /\ s <> "")
  /\ (forall ev outcomes,
         ~ In (Log WARNING formatting_failed)
              (fst (run (message_handler destination_group generate ev)
                        outcomes))).
Proof.
  intros H. apply process_outcome_valid in H. destruct H as [Hr Hf].
  split; [exact Hr|]. split; [exact Hf|].
  intros ev outcomes. apply handler_never_warns.
Qed.

End RelayClaims.

(** C7, counterexample.  The first line of the response begins with a
    space, so none of its lines begins with ["VALID:"]; the response is
    stripped before it is split, and the result is valid. *)
Lemma leading_space_valid_line :
  (forall l,
      In l (PyStr.split PyStr.nl
              (" VALID: true" ++ PyStr.NL ++ "REASON: ok" ++ PyStr.NL
               ++ "FORMAT:" ++ PyStr.NL ++ "Asset: GOLD")) ->
      PyStr.startswith "VALID:" l = false)
  /\ Normalizer.process_with_llm
       (fun _ => Normalizer.Responded
                   (" VALID: true" ++ PyStr.NL ++ "REASON: ok" ++ PyStr.NL
                    ++ "FORMAT:" ++ PyStr.NL ++ "Asset: GOLD"))
       "buy gold"
     = (true, None, Some "Asset: GOLD").
Proof.
  split; [|reflexivity].
  intros l Hl. vm_compute in Hl.
  destruct Hl as [<-|[<-|[<-|[<-|[]]]]]; reflexivity.
Qed.

(** C9, counterexample.  The text generation raises while the message is
    processed: [process_with_llm] catches the exception and reports an
    invalid message, and the handler drops the message without a forward. *)
Lemma llm_exception_drops_message :
  Relay.run
    (Relay.message_handler 7%Z (fun _ => Normalizer.Raised "quota exceeded")
       {| Relay.ev_message := {| Relay.message_id := 42;
                                 Relay.raw_text := "GOLD buy now 2930.88" |};
          Relay.get_chat := inr {| Relay.title := "Signals";
                                   Relay.chat_id := (-100123)%Z |} |})
    []
  = ([ Relay.Log Relay.INFO
         "Received message from source group: Signals (ID: -100123)";
       Relay.Log Relay.DEBUG
         "Skipping invalid trading message: Error processing message: quota exceeded" ],
     inr tt).
Proof. reflexivity. Qed.

(** The send of the formatted text raises, and so does the fallback forward. *)
Lemma fallback_forwards_once_witness :
  let generate := fun _ : string =>
    Normalizer.Responded
      ("VALID: true" ++ PyStr.NL ++ "REASON: Valid trading signal" ++ PyStr.NL
       ++ "FORMAT:" ++ PyStr.NL ++ "Asset: GOLD" ++ PyStr.NL
       ++ "Entry: 2930.88") in
  let msg := {| Relay.message_id := 42;
                Relay.raw_text := "GOLD buy now 2930.88" |} in
  let ev := {| Relay.ev_message := msg;
               Relay.get_chat := inr {| Relay.title := "Signals";
                                        Relay.chat_id := (-100123)%Z |} |} in
  let st := {| Relay.script := [Some "FloodWaitError"; Some "ChatWriteForbiddenError"];
               Relay.trace := [] |} in
  let sent :=
    [ Relay.Log Relay.INFO
        "Received message from source group: Signals (ID: -100123)";
      Relay.SendMessage 7%Z ("Asset: GOLD" ++ PyStr.NL ++ "Entry: 2930.88")
        false ] in
  Relay.handler_body 7%Z generate ev st
  = ({| Relay.script := [Some "ChatWriteForbiddenError"];
        Relay.trace := sent |}, inl "FloodWaitError")
  /\ Relay.message_handler 7%Z generate ev st
     = ({| Relay.script := [];
           Relay.trace := sent ++
             [ Relay.Log Relay.ERROR
                 "Error processing message: FloodWaitError";
               Relay.ForwardMessages 7%Z msg;
               Relay.Log Relay.ERROR
                 "Failed to forward original message: ChatWriteForbiddenError"
             ] |}, inr tt).
Proof.
  intros generate msg ev st sent.
  assert (H : Relay.handler_body 7%Z generate ev st
              = ({| Relay.script := [Some "ChatWriteForbiddenError"];
                    Relay.trace := sent |}, inl "FloodWaitError"))
    by reflexivity.
  split; [exact H|].
  exact (fallback_forwards_once 7%Z generate ev st _ _ H).
Defined.

(** A valid response with a format block of two lines. *)
Lemma valid_result_carries_text_witness :
  let generate := fun _ : string =>
    Normalizer.Responded
      ("VALID: true" ++ PyStr.NL ++ "REASON: Valid trading signal" ++ PyStr.NL
       ++ "FORMAT:" ++ PyStr.NL ++ "Asset: GOLD" ++ PyStr.NL
       ++ "Entry: 2930.88") in
  let formatted := "Asset: GOLD" ++ PyStr.NL ++ "Entry: 2930.88" in
  Normalizer.process_with_llm generate "GOLD buy now 2930.88"
  = (true, None, Some formatted)
  /\ (@None string = None
      /\ (exists s, Some formatted = Some s /\ s <> "")
      /\ (forall ev outcomes,
             ~ In (Relay.Log Relay.WARNING Relay.formatting_failed)
                  (fst (Relay.run (Relay.message_handler 7%Z generate ev)
                                  outcomes)))).
Proof.
  intros generate formatted.
  assert (H : Normalizer.process_with_llm generate "GOLD buy now 2930.88"
              = (true, None, Some formatted)) by reflexivity.
  split; [exact H|].
  exact (valid_result_carries_text 7%Z generate _ _ _ H).
Defined.

(** * Further properties of the normalizer *)

Section SplitJoin.

Import PyStr.

Lemma split_app_sep (c : ascii) (a b : string) :
  split c (a ++ String c b) = (split c a ++ split c b)%list.
Proof.
  induction a as [|x r IH]; simpl.
  - now rewrite Ascii.eqb_refl.
  - destruct (x =? c)%char.
    + now rewrite IH.
    + rewrite IH. pose proof (split_not_nil c r) as Hn.
      destruct (split c r) as [|h t]; [contradiction|reflexivity].
Qed.

Lemma str_app_assoc (a b c : string) : (a ++ b) ++ c = a ++ (b ++ c).
Proof. induction a as [|x r IH]; simpl; [reflexivity | now rewrite IH]. Qed.

Lemma join_app (sep : string) (l1 l2 : list string) :
  l1 <> [] -> l2 <> [] ->
  join sep (l1 ++ l2) = join sep l1 ++ sep ++ join sep l2.
Proof.
  unfold join. intros H1 H2. induction l1 as [|x t IH]; [contradiction|].
  destruct t as [|y t'].
  - simpl. destruct l2; [contradiction|reflexivity].
  - change (String.concat sep ((x :: y :: t') ++ l2))
      with (x ++ sep ++ String.concat sep ((y :: t') ++ l2)).
    rewrite IH by discriminate.
    change (String.concat sep (x :: y :: t'))
      with (x ++ sep ++ String.concat sep (y :: t')).
    now rewrite !str_app_assoc.
Qed.

(** A string without the separator is one piece. *)
Lemma split_one (c : ascii) (a : string) :
  has_char c a = false -> split c a = [a].
Proof.
  induction a as [|x r IH]; simpl; [reflexivity|].
  destruct (x =? c)%char; [discriminate|]. simpl.
  intros H. now rewrite (IH H).
Qed.

(** The pieces of a split hold no separator. *)
Lemma split_pieces (c : ascii) (s l : string) :
  In l (split c s) -> has_char c l = false.
Proof.
  revert l. induction s as [|x r IH]; simpl; intros l Hin.
  - destruct Hin as [<-|[]]. reflexivity.
  - destruct (x =? c)%char eqn:E.
    + destruct Hin as [<-|Hin]; [reflexivity | now apply IH].
    + destruct (split c r) as [|h t].
      * destruct Hin as [<-|[]]. simpl. now rewrite E.
      * destruct Hin as [<-|Hin].
        -- simpl. rewrite E. apply IH. now left.
        -- apply IH. now right.
Qed.

(** Splitting what was joined gives the pieces back, when none of them
    holds the separator. *)
Lemma split_join (c : ascii) (ls : list string) :
  ls <> [] -> (forall l, In l ls -> has_char c l = false) ->
  split c (join (String c "") ls) = ls.
Proof.
  unfold join. induction ls as [|x t IH]; intros Hn Hall; [contradiction|].
  destruct t as [|y t'].
  - simpl. apply split_one, Hall. now left.
  - change (String.concat (String c "") (x :: y :: t'))
      with (x ++ String c (String.concat (String c "") (y :: t'))).
    rewrite split_app_sep, IH.
    + rewrite split_one; [reflexivity | apply Hall; now left].
    + discriminate.
    + intros l Hl. apply Hall. now right.
Qed.

End SplitJoin.

Section NoNewline.

Import PyStr.

Lemma has_char_app (c : ascii) (a b : string) :
  has_char c (a ++ b) = has_char c a || has_char c b.
Proof.
  induction a as [|x r IH]; simpl; [reflexivity|].
  now rewrite IH, orb_assoc.
Qed.

Lemma has_char_drop (c : ascii) (n : nat) (s : string) :
  has_char c s = false -> has_char c (drop n s) = false.
Proof.
  revert s. induction n as [|n IH]; intros s H; [destruct s; exact H|].
  destruct s as [|x r]; [reflexivity|]. simpl in *.
  apply orb_false_elim in H. now apply IH.
Qed.

Lemma has_char_lstrip (c : ascii) (s : string) :
  has_char c s = false -> has_char c (lstrip s) = false.
Proof.
  induction s as [|x r IH]; intros H; [reflexivity|]. simpl.
  destruct (is_space x); [|exact H].
  simpl in H. apply orb_false_elim in H. now apply IH.
Qed.

Lemma has_char_rstrip (c : ascii) (s : string) :
  has_char c s = false -> has_char c (rstrip s) = false.
Proof.
  induction s as [|x r IH]; intros H; [reflexivity|]. simpl in *.
  apply orb_false_elim in H. destruct H as [Hx Hr].
  specialize (IH Hr).
  destruct (rstrip r) as [|y r'].
  - destruct (is_space x); [reflexivity|]. simpl. now rewrite Hx.
  - change (has_char c (String x (String y r')))
      with ((x =? c)%char || has_char c (String y r')).
    now rewrite Hx, IH.
Qed.

Lemma has_char_strip (c : ascii) (s : string) :
  has_char c s = false -> has_char c (strip s) = false.
Proof. intros H. now apply has_char_rstrip, has_char_lstrip. Qed.

Lemma has_char_hd_split (c d : ascii) (s : string) :
  has_char c s = false -> has_char c (hd "" (split d s)) = false.
Proof.
  induction s as [|x r IH]; intros H; [reflexivity|]. simpl in *.
  apply orb_false_elim in H. destruct H as [Hx Hr].
  destruct (x =? d)%char; [reflexivity|].
  specialize (IH Hr).
  destruct (split d r) as [|h t]; simpl in *; now rewrite Hx.
Qed.

Lemma nl_uint (d : Decimal.uint) :
  has_char nl (NilEmpty.string_of_uint d) = false.
Proof. induction d; simpl; auto. Qed.

Lemma nl_uint_string (w : Z) : has_char nl (PyFloat.uint_string w) = false.
Proof.
  unfold PyFloat.uint_string, NilZero.string_of_uint.
  destruct (N.to_uint (Z.to_N w)); try reflexivity; apply nl_uint.
Qed.

Lemma nl_rstrip_zeros (s : string) :
  has_char nl s = false -> has_char nl (PyFloat.rstrip_zeros s) = false.
Proof.
  induction s as [|x r IH]; intros H; [reflexivity|]. simpl in *.
  apply orb_false_elim in H. destruct H as [Hx Hr].
  specialize (IH Hr).
  destruct (PyFloat.rstrip_zeros r) as [|y r'].
  - destruct (x =? "0")%char; [reflexivity|]. simpl. now rewrite Hx.
  - change (has_char nl (String x (String y r')))
      with ((x =? nl)%char || has_char nl (String y r')).
    now rewrite Hx, IH.
Qed.

Lemma nl_zeros (n : nat) : has_char nl (PyFloat.zeros n) = false.
Proof. induction n; simpl; auto. Qed.

Lemma nl_take (n : nat) (s : string) :
  has_char nl s = false -> has_char nl (PyFloat.take n s) = false.
Proof.
  revert s. induction n as [|n IH]; intros s H; [reflexivity|].
  destruct s as [|x r]; [reflexivity|]. simpl in *.
  apply orb_false_elim in H. destruct H as [Hx Hr].
  now rewrite Hx, IH.
Qed.

Lemma nl_exponent_string (e : Z) :
  has_char nl (PyFloat.exponent_string e) = false.
Proof.
  unfold PyFloat.exponent_string.
  rewrite !has_char_app, nl_uint_string.
  destruct (e <? 0)%Z, (_ <? 2)%nat; reflexivity.
Qed.

Lemma nl_layout (ds : string) (decpt : Z) :
  has_char nl ds = false -> has_char nl (PyFloat.layout ds decpt) = false.
Proof.
  intros H. unfold PyFloat.layout.
  destruct (_ || _).
  - rewrite !has_char_app, nl_exponent_string, (nl_take _ _ H).
    destruct (1 <? _)%Z; [|reflexivity].
    now rewrite has_char_app, (has_char_drop _ _ _ H).
  - destruct (decpt <=? 0)%Z.
    + now rewrite !has_char_app, nl_zeros, H.
    + destruct (decpt <? _)%Z.
      * now rewrite !has_char_app, (nl_take _ _ H), (has_char_drop _ _ _ H).
      * now rewrite !has_char_app, nl_zeros, H.
Qed.

(** What [str] makes of a float holds no line feed. *)
Lemma nl_float_str (x : PyFloat.float) :
  has_char nl (PyFloat.float_str x) = false.
Proof.
  destruct x as [k|]; [|reflexivity]. unfold PyFloat.float_str.
  destruct (k <=? 0)%Z; [reflexivity|].
  unfold PyFloat.dtoa_shortest.
  destruct (PyFloat.shortest_from 17 k (PyFloat.decimal_exponent k) 1)
    as [w p].
  apply nl_layout, nl_rstrip_zeros, nl_uint_string.
Qed.

Lemma nl_sort_price_range (s : string) :
  has_char nl s = false ->
  has_char nl (Normalizer.sort_price_range s) = false.
Proof.
  intros H. unfold Normalizer.sort_price_range.
  destruct (findall_numbers s) as [|t1 [|t2 [|t3 ts]]]; try exact H.
  destruct (PyFloat.float_of_token t1), (PyFloat.float_of_token t2);
    try exact H.
  now rewrite !has_char_app, !nl_float_str.
Qed.

(** The loop body keeps a line in one piece. *)
Lemma nl_format_line (l : string) :
  has_char nl l = false -> has_char nl (Normalizer.format_line l) = false.
Proof.
  intros H. unfold Normalizer.format_line.
  destruct (_ && _); [|exact H].
  rewrite !has_char_app, (has_char_hd_split _ _ _ H). simpl.
  now apply nl_sort_price_range, has_char_strip, has_char_drop.
Qed.

End NoNewline.

Section PostProcessing.

Import PyStr Normalizer.

Lemma format_final_response_lines (text : string) :
  split nl (format_final_response text) = map format_line (split nl text).
Proof.
  unfold format_final_response. apply split_join.
  - pose proof (split_not_nil nl text) as Hn.
    destruct (split nl text); [contradiction|discriminate].
  - intros l Hl. apply in_map_iff in Hl. destruct Hl as [l0 [<- Hl0]].
    apply nl_format_line. now apply (split_pieces nl text).
Qed.

(** X1.  The post-processing works line by line: the lines of its output
    are the loop body applied to the lines of its input, one for one, so no
    line is added, dropped, split or merged. *)
Theorem output_lines (text : string) :
  split nl (format_final_response text) = map format_line (split nl text)
  /\ List.length (split nl (format_final_response text))
     = List.length (split nl text).
Proof.
  split; [apply format_final_response_lines|].
  now rewrite format_final_response_lines, length_map.
Qed.

(** X2.  The post-processing of two blocks put one after the other, with a
    line feed between them, is the post-processing of each, put together
    the same way. *)
Theorem format_final_response_app (a b : string) :
  format_final_response (a ++ NL ++ b)
  = format_final_response a ++ NL ++ format_final_response b.
Proof.
  unfold format_final_response.
  change (a ++ NL ++ b) with (a ++ String nl b).
  rewrite split_app_sep, map_app. apply join_app.
  - pose proof (split_not_nil nl a) as Hn.
    destruct (split nl a); [contradiction|discriminate].
  - pose proof (split_not_nil nl b) as Hn.
    destruct (split nl b); [contradiction|discriminate].
Qed.

(** X3.  A block none of whose lines both begins with ["Entry:"] and
    contains [" - "] comes out unchanged: an Entry line with a single price
    is kept as it is. *)
Theorem no_range_line_unchanged (text : string) :
  (forall l, In l (split nl text) ->
             startswith "Entry:" l && contains " - " l = false) ->
  format_final_response text = text.
Proof.
  intros H. unfold format_final_response.
  rewrite (map_ext_in format_line (fun l => l)).
  - rewrite map_id. apply join_split.
  - intros l Hl. unfold format_line. now rewrite (H l Hl).
Qed.

Lemma no_range_line_unchanged_witness :
  let text := "Asset: GOLD" ++ NL ++ "Entry: 2930.88" ++ NL
              ++ "Take Profit: 2936 - 2940" in
  (forall l, In l (split nl text) ->
             startswith "Entry:" l && contains " - " l = false)
  /\ format_final_response text = text.
Proof.
  intros text.
  assert (H : forall l, In l (split nl text) ->
                        startswith "Entry:" l && contains " - " l = false).
  { intros l Hl. vm_compute in Hl.
    destruct Hl as [<-|[<-|[<-|[]]]]; vm_compute; reflexivity. }
  split; [exact H|].
  exact (no_range_line_unchanged text H).
Defined.

Lemma float_min_comm (a b : PyFloat.float) : PyFloat.min a b = PyFloat.min b a.
Proof.
  unfold PyFloat.min. destruct a as [x|], b as [y|]; simpl; try reflexivity.
  destruct (Z.ltb_spec y x), (Z.ltb_spec x y); try reflexivity; try lia.
  f_equal. lia.
Qed.

Lemma float_max_comm (a b : PyFloat.float) : PyFloat.max a b = PyFloat.max b a.
Proof.
  unfold PyFloat.max. destruct a as [x|], b as [y|]; simpl; try reflexivity.
  destruct (Z.ltb_spec y x), (Z.ltb_spec x y); try reflexivity; try lia.
  f_equal. lia.
Qed.

(** X4.  [sort_price_range] does not depend on the order of the two numbers
    nor on the text around them: two ranges that hold the same two numbers,
    in either order, are rewritten to the same string. *)
Theorem sort_price_range_order (s s' : string) (a b : PyFloat.float) :
  scanned_pair s = Some (a, b) ->
  scanned_pair s' = Some (b, a) ->
  sort_price_range s = sort_price_range s'.
Proof.
  intros H H'.
  rewrite (sort_price_range_pair _ _ _ H), (sort_price_range_pair _ _ _ H').
  now rewrite (float_min_comm a b), (float_max_comm a b).
Qed.

Lemma sort_price_range_order_witness :
  let a := PyFloat.round_binary64 293488 100 in
  let b := PyFloat.round_binary64 293088 100 in
  scanned_pair "2934.88 - 2930.88" = Some (a, b)
  /\ scanned_pair "from 2930.88 up to 2934.88" = Some (b, a)
  /\ sort_price_range "2934.88 - 2930.88"
     = sort_price_range "from 2930.88 up to 2934.88".
Proof.
  intros a b.
  assert (H : scanned_pair "2934.88 - 2930.88" = Some (a, b))
    by (vm_compute; reflexivity).
  assert (H' : scanned_pair "from 2930.88 up to 2934.88" = Some (b, a))
    by (vm_compute; reflexivity).
  split; [exact H|]. split; [exact H'|].
  exact (sort_price_range_order _ _ a b H H').
Defined.

(** X5.  Line by line: a line of the input that begins with ["Entry:"] and
    contains [" - "] comes out, at the same place, as ["Entry: "] followed by
    [sort_price_range] of the stripped rest of the line after its seventh
    character. *)
Theorem range_line_in_place (text line : string) (i : nat) :
  nth_error (split nl text) i = Some line ->
  startswith "Entry:" line = true ->
  contains " - " line = true ->
  nth_error (split nl (format_final_response text)) i
  = Some ("Entry: " ++ sort_price_range (strip (drop 7 line))).
Proof.
  intros Hi Hs Hc. rewrite format_final_response_lines, nth_error_map, Hi. simpl.
  now rewrite (format_line_entry_any _ Hs Hc).
Qed.

Lemma range_line_in_place_witness :
  let text := "Asset: GOLD" ++ NL ++ "Entry:  TBD - soon" in
  nth_error (split nl text) 1 = Some "Entry:  TBD - soon"
  /\ nth_error (split nl (format_final_response text)) 1
     = Some "Entry: TBD - soon".
Proof.
  intros text.
  assert (H : nth_error (split nl text) 1 = Some "Entry:  TBD - soon")
    by reflexivity.
  split; [exact H|].
  exact (range_line_in_place text _ 1 H eq_refl eq_refl).
Defined.

(** X6.  Line by line: a line of the input that does not begin with
    ["Entry:"], or does not contain [" - "], comes out unchanged at the same
    place, whatever the other lines are. *)
Theorem other_line_in_place (text line : string) (i : nat) :
  nth_error (split nl text) i = Some line ->
  startswith "Entry:" line && contains " - " line = false ->
  nth_error (split nl (format_final_response text)) i = Some line.
Proof.
  intros Hi Hc. rewrite format_final_response_lines, nth_error_map, Hi. simpl.
  unfold format_line. now rewrite Hc.
Qed.

Lemma other_line_in_place_witness :
  let text := "Entry: 2 - 1" ++ NL ++ "Stop Loss: 3 - 0.5" in
  nth_error (split nl text) 1 = Some "Stop Loss: 3 - 0.5"
  /\ nth_error (split nl (format_final_response text)) 1
     = Some "Stop Loss: 3 - 0.5".
Proof.
  intros text.
  assert (H : nth_error (split nl text) 1 = Some "Stop Loss: 3 - 0.5")
    by reflexivity.
  split; [exact H|].
  exact (other_line_in_place text _ 1 H eq_refl).
Defined.

End PostProcessing.

Section ResponseLayout.

Import PyStr Normalizer.

Lemma rstrip_idem (s : string) : rstrip (rstrip s) = rstrip s.
Proof.
  induction s as [|x r IH]; [reflexivity|]. simpl.
  destruct (rstrip r) as [|y r'] eqn:E.
  - destruct (is_space x) eqn:Hx; [reflexivity|]. simpl. now rewrite Hx.
  - change (rstrip (String x (String y r')))
      with (match rstrip (String y r') with
            | "" => if is_space x then "" else String x ""
            | String _ _ as t => String x t
            end).
    now rewrite IH.
Qed.

Lemma rstrip_app (a b : string) :
  rstrip b <> "" -> rstrip (a ++ b) = a ++ rstrip b.
Proof.
  intros Hb. induction a as [|x r IH]; [reflexivity|]. simpl. rewrite IH.
  destruct (r ++ rstrip b) as [|y t] eqn:E; [|reflexivity].
  destruct r; [simpl in E; contradiction | discriminate].
Qed.

(** The result of [process_with_llm] for a response that is not empty, by
    the verdict and the block found. *)
Lemma process_outcome_paths (text : string) :
  text <> "" ->
  exists reason,
    process_outcome (Responded text) =
      let sections := split nl (strip text) in
      if negb (contains "true" (lower (first_startswith "VALID:" sections)))
      then (false, reason, None)
      else match index "FORMAT:" sections with
           | None => processing_error format_not_in_list
           | Some i =>
               let format_section :=
                 strip (join NL (skipn (i + 1) sections)) in
               if (format_section =? "")%string
                  || (format_section =? "None")%string
               then (false, Some "Failed to format message", None)
               else (true, None,
                     Some (format_final_response format_section))
           end.
Proof.
  intros Ht. apply String.eqb_neq in Ht.
  destruct (parse_response_paths text Ht) as [r Hp]. exists r.
  simpl. rewrite Hp. cbv zeta.
  destruct (negb _); [reflexivity|].
  destruct (index "FORMAT:" _); [|reflexivity].
  destruct (_ || _); reflexivity.
Qed.

(** X7.  Whenever [process_with_llm] returns [isValid=false], it returns no
    formatted text: the text is there exactly when the verdict is valid. *)
Theorem invalid_result_has_no_text (generate : string -> llm_outcome)
    (message_text : string) (reason formatted : option string) :
  process_with_llm generate message_text = (false, reason, formatted) ->
  formatted = None.
Proof.
  unfold process_with_llm.
  destruct (generate message_text) as [msg|text].
  - simpl. unfold processing_error. now intros [= _ <-].
  - destruct (String.eqb_spec text "") as [->|Ht].
    + simpl. now intros [= _ <-].
    + destruct (process_outcome_paths text Ht) as [r ->]. cbv zeta.
      destruct (negb _); [now intros [= _ <-]|].
      destruct (index "FORMAT:" _);
        [|unfold processing_error; now intros [= _ <-]].
      destruct (_ || _); [now intros [= _ <-] | discriminate].
Qed.

Lemma invalid_result_has_no_text_witness :
  let generate := fun _ : string => Raised "quota exceeded" in
  process_with_llm generate "buy gold"
  = (false, Some "Error processing message: quota exceeded", None)
  /\ @None string = None.
Proof.
  intros generate.
  assert (H : process_with_llm generate "buy gold"
              = (false, Some "Error processing message: quota exceeded",
                 None)) by reflexivity.
  split; [exact H|].
  exact (invalid_result_has_no_text generate "buy gold" _ _ H).
Defined.

End ResponseLayout.

Section ResponseLayoutClaims.

Import PyStr Normalizer.

Variable generate : string -> llm_outcome.

Lemma startswith_app (p r : string) : startswith p (p ++ r) = true.
Proof.
  unfold startswith. induction p as [|x p IH]; simpl.
  - destruct r; reflexivity.
  - destruct (ascii_dec x x); [exact IH | contradiction].
Qed.

Lemma strip_fixed_rstrip (s : string) : strip s = s -> rstrip s = s.
Proof.
  unfold strip. intros H. rewrite <- H at 1. rewrite rstrip_idem. exact H.
Qed.

(** The lines of a response laid out as a verdict line, a reason line and
    what follows. *)
Lemma layout_sections (verdict r tail : string) :
  has_char nl verdict = false ->
  has_char nl r = false ->
  split nl (verdict ++ NL ++ ("REASON:" ++ r) ++ NL ++ tail)
  = verdict :: ("REASON:" ++ r) :: split nl tail.
Proof.
  intros Hv Hr.
  change (verdict ++ NL ++ ("REASON:" ++ r) ++ NL ++ tail)
    with (verdict ++ String nl (("REASON:" ++ r) ++ String nl tail)).
  rewrite !split_app_sep, (split_one nl verdict Hv).
  rewrite (split_one nl ("REASON:" ++ r)); [reflexivity|].
  simpl. exact Hr.
Qed.

(** X8.  A response laid out as the prompt asks, ["VALID: true"], a reason
    line and a line ["FORMAT:"] followed by a block, is accepted: when the
    block has no surrounding whitespace and is neither empty nor ["None"],
    the result is valid, without a reason, and carries the post-processing
    of the block. *)
Theorem valid_layout_accepted (message_text r block : string) :
  generate message_text
  = Responded ("VALID: true" ++ NL ++ ("REASON:" ++ r) ++ NL
               ++ "FORMAT:" ++ NL ++ block) ->
  has_char nl r = false ->
  strip block = block -> block <> "" -> block <> "None" ->
  process_with_llm generate message_text
  = (true, None, Some (format_final_response block)).
Proof.
  intros Hg Hr Hs Hne Hnone. unfold process_with_llm. rewrite Hg.
  set (text := "VALID: true" ++ NL ++ ("REASON:" ++ r) ++ NL
               ++ "FORMAT:" ++ NL ++ block).
  assert (Ht : text <> "") by discriminate.
  assert (Hsec : split nl (strip text)
                 = "VALID: true" :: ("REASON:" ++ r) :: "FORMAT:"
                   :: split nl block).
  { assert (Hstrip : strip text = text).
    { unfold strip.
      change (lstrip text) with text.
      assert (E : text = ("VALID: true" ++ NL ++ ("REASON:" ++ r) ++ NL
                          ++ "FORMAT:" ++ NL) ++ block).
      { unfold text. simpl. now rewrite !str_app_assoc. }
      rewrite E at 1. rewrite rstrip_app.
      - rewrite (strip_fixed_rstrip _ Hs). now rewrite <- E.
      - now rewrite (strip_fixed_rstrip _ Hs). }
    rewrite Hstrip. unfold text.
    rewrite (layout_sections "VALID: true" r _ eq_refl Hr).
    change ("FORMAT:" ++ NL ++ block) with ("FORMAT:" ++ String nl block).
    now rewrite split_app_sep. }
  destruct (process_outcome_paths text Ht) as [reason ->]. cbv zeta.
  rewrite Hsec. simpl.
  change (String.concat NL (split nl block)) with (join NL (split nl block)).
  unfold NL. rewrite join_split, Hs.
  apply String.eqb_neq in Hne. apply String.eqb_neq in Hnone.
  now rewrite Hne, Hnone.
Qed.

(** X9.  A response that opens with the line ["VALID: false"], followed by
    a reason line and by further text that is not all whitespace, is
    rejected with that reason, stripped, and without a formatted text,
    whatever that further text is. *)
Theorem invalid_layout_reason (message_text r tail : string) :
  generate message_text
  = Responded ("VALID: false" ++ NL ++ ("REASON:" ++ r) ++ NL ++ tail) ->
  has_char nl r = false ->
  rstrip tail <> "" ->
  process_with_llm generate message_text = (false, Some (strip r), None).
Proof.
  intros Hg Hr Htail. unfold process_with_llm. rewrite Hg.
  set (text := "VALID: false" ++ NL ++ ("REASON:" ++ r) ++ NL ++ tail).
  assert (Hsec : split nl (strip text)
                 = "VALID: false" :: ("REASON:" ++ r)
                   :: split nl (rstrip tail)).
  { unfold strip. change (lstrip text) with text.
    assert (E : text = ("VALID: false" ++ NL ++ ("REASON:" ++ r) ++ NL)
                       ++ tail).
    { unfold text. simpl. now rewrite !str_app_assoc. }
    rewrite E, (rstrip_app _ _ Htail).
    assert (E' : ("VALID: false" ++ NL ++ ("REASON:" ++ r) ++ NL)
                 ++ rstrip tail
                 = "VALID: false" ++ NL ++ ("REASON:" ++ r) ++ NL
                   ++ rstrip tail).
    { simpl. now rewrite !str_app_assoc. }
    rewrite E'. now apply layout_sections. }
  simpl. unfold parse_response.
  change (text =? "")%string with false. cbv iota zeta.
  rewrite Hsec.
  assert (F : first_startswith "REASON:"
                ("VALID: false" :: ("REASON:" ++ r) :: split nl (rstrip tail))
              = "REASON:" ++ r).
  { unfold first_startswith. cbn [find].
    change (startswith "REASON:" "VALID: false") with false. cbv iota.
    now rewrite startswith_app. }
  rewrite F. reflexivity.
Qed.


End ResponseLayoutClaims.

Lemma valid_layout_accepted_witness :
  let block := "Asset: GOLD" ++ PyStr.NL ++ "Type: BUY" in
  let generate := fun _ : string =>
    Normalizer.Responded
      ("VALID: true" ++ PyStr.NL ++ ("REASON:" ++ " Valid trading signal")
       ++ PyStr.NL ++ "FORMAT:" ++ PyStr.NL ++ block) in
  Normalizer.process_with_llm generate "buy gold"
  = (true, None, Some block).
Proof.
  intros block generate.
  exact (valid_layout_accepted generate "buy gold" " Valid trading signal" block
           eq_refl eq_refl eq_refl ltac:(discriminate) ltac:(discriminate)).
Defined.

Lemma invalid_layout_reason_witness :
  let generate := fun _ : string =>
    Normalizer.Responded
      ("VALID: false" ++ PyStr.NL ++ ("REASON:" ++ " Missing stop loss level")
       ++ PyStr.NL ++ "FORMAT: None") in
  Normalizer.process_with_llm generate "buy gold"
  = (false, Some "Missing stop loss level", None).
Proof.
  intros generate.
  exact (invalid_layout_reason generate "buy gold" " Missing stop loss level"
           "FORMAT: None" eq_refl eq_refl ltac:(discriminate)).
Defined.


Section SecondPass.

Import PyStr Normalizer.

Lemma lstrip_head (s : string) :
  lstrip s = "" \/ exists x r, lstrip s = String x r /\ is_space x = false.
Proof.
  induction s as [|x r IH]; [now left|]. simpl.
  destruct (is_space x) eqn:Hx; [exact IH|].
  right. now exists x, r.
Qed.

Lemma strip_head (s : string) :
  strip s = "" \/ exists x r, strip s = String x r /\ is_space x = false.
Proof.
  unfold strip. destruct (lstrip_head s) as [->|[x [r [-> Hx]]]];
    [now left|].
  right. simpl. destruct (rstrip r) as [|y r'].
  - rewrite Hx. now exists x, "".
  - now exists x, (String y r').
Qed.

(** Stripping twice is stripping once. *)
Lemma strip_idem (s : string) : strip (strip s) = strip s.
Proof.
  destruct (strip_head s) as [E|[x [r [E Hx]]]].
  - now rewrite E.
  - unfold strip at 1. rewrite E. simpl lstrip. rewrite Hx.
    rewrite <- E. unfold strip. apply rstrip_idem.
Qed.

Lemma format_line_fixed (l : string) :
  (startswith "Entry:" l && contains " - " l = true ->
   scanned_pair (strip (drop 7 l)) = None) ->
  format_line (format_line l) = format_line l.
Proof.
  intros H.
  destruct (startswith "Entry:" l && contains " - " l) eqn:E.
  - apply andb_prop in E. destruct E as [Hs Hc].
    specialize (H eq_refl).
    rewrite (format_line_entry_any _ Hs Hc), (sort_price_range_none _ H).
    set (l' := "Entry: " ++ strip (drop 7 l)).
    destruct (contains " - " l') eqn:Hc'.
    + rewrite (format_line_entry_any l' eq_refl Hc').
      unfold l'.
      change (drop 7 ("Entry: " ++ strip (drop 7 l)))
        with (strip (drop 7 l)).
      rewrite strip_idem.
      now rewrite (sort_price_range_none _ H).
    + unfold format_line. rewrite Hc'. now rewrite andb_false_r.
  - unfold format_line at 2. rewrite E.
    unfold format_line. now rewrite E.
Qed.

(** X11.  A second pass changes nothing when no line of the block is
    rewritten as a pair of numbers: what the first pass does to the other
    Entry lines, a single space after the colon and no whitespace around the
    rest, it does once. *)
Theorem second_pass_fixed (text : string) :
  (forall l, In l (split nl text) ->
             startswith "Entry:" l && contains " - " l = true ->
             scanned_pair (strip (drop 7 l)) = None) ->
  format_final_response (format_final_response text)
  = format_final_response text.
Proof.
  intros H. unfold format_final_response at 1.
  rewrite format_final_response_lines, map_map.
  unfold format_final_response. f_equal.
  apply map_ext_in. intros l Hl. apply format_line_fixed. now apply H.
Qed.

Lemma second_pass_fixed_witness :
  let text := "Asset: GOLD" ++ NL ++ "Entry:   now - or 2930 " ++ NL
              ++ "Stop Loss: 2926.88" in
  (forall l, In l (split nl text) ->
             startswith "Entry:" l && contains " - " l = true ->
             scanned_pair (strip (drop 7 l)) = None)
  /\ format_final_response text
     = "Asset: GOLD" ++ NL ++ "Entry: now - or 2930" ++ NL
       ++ "Stop Loss: 2926.88"
  /\ format_final_response (format_final_response text)
     = format_final_response text.
Proof.
  intros text.
  assert (H : forall l, In l (split nl text) ->
                startswith "Entry:" l && contains " - " l = true ->
                scanned_pair (strip (drop 7 l)) = None).
  { intros l [<-|[<-|[<-|[]]]]; intros E; try reflexivity; discriminate E. }
  split; [exact H|]. split; [reflexivity|].
  exact (second_pass_fixed text H).
Defined.

End SecondPass.

(** * Further properties of the relay *)

Ltac bounded_trace :=
  let H := fresh "H" in
  split; [simpl; lia|]; split; [simpl; lia|];
  split; [intros ? ? ? H | intros ? ? H];
  simpl in H; intuition congruence.

Section RelayPaths.

Import PyStr Normalizer Relay.

Variable destination_group : Z.
Variable generate : string -> llm_outcome.

(** X12.  A message without text is skipped, whatever the text generation
    would answer: once the chat is fetched, the handler logs twice and
    returns, without a call of the client. *)
Theorem empty_message_skipped (ev : event) (c : chat) (st : state) :
  get_chat ev = inr c ->
  raw_text (ev_message ev) = "" ->
  message_handler destination_group generate ev st
  = ({| script := script st;
        trace := trace st ++ [received c; Log DEBUG "Skipping empty message"]
     |}, inr tt).
Proof.
  intros Hc Ht.
  unfold message_handler, try_except, handler_body, bind, await, log.
  rewrite Hc, Ht. simpl. now rewrite <- app_assoc.
Qed.

(** X13.  A message that [process_with_llm] finds invalid is dropped: the
    handler logs the reason and returns, without a call of the client. *)
Theorem invalid_message_dropped (ev : event) (c : chat) (st : state)
    (reason formatted : option string) :
  get_chat ev = inr c ->
  raw_text (ev_message ev) <> "" ->
  process_with_llm generate (raw_text (ev_message ev))
  = (false, reason, formatted) ->
  message_handler destination_group generate ev st
  = ({| script := script st;
        trace := trace st ++
          [received c;
           Log DEBUG ("Skipping invalid trading message: " ++ opt_str reason)]
     |}, inr tt).
Proof.
  intros Hc Ht Hp. apply String.eqb_neq in Ht.
  unfold message_handler, try_except, handler_body, bind, await, log.
  rewrite Hc, Ht, Hp. simpl. now rewrite <- app_assoc.
Qed.

(** X14.  A message that [process_with_llm] finds valid is sent once, as
    the formatted text, to the destination group, with the link preview
    off; when the send returns, the original message is not forwarded. *)
Theorem valid_message_sent (ev : event) (c : chat) (st : state)
    (reason : option string) (text : string) :
  get_chat ev = inr c ->
  raw_text (ev_message ev) <> "" ->
  process_with_llm generate (raw_text (ev_message ev))
  = (true, reason, Some text) ->
  hd None (script st) = None ->
  message_handler destination_group generate ev st
  = ({| script := tl (script st);
        trace := trace st ++
          [received c;
           SendMessage destination_group text false;
           Log INFO ("Successfully processed and forwarded trading message:"
                     ++ NL ++ "Original:" ++ NL ++ raw_text (ev_message ev)
                     ++ NL ++ NL ++ "Formatted:" ++ NL ++ text)]
     |}, inr tt).
Proof.
  intros Hc Ht Hp Hs. apply String.eqb_neq in Ht.
  pose proof (valid_result_truthy generate _ _ _ Hp) as Htr.
  unfold message_handler, try_except, handler_body, bind, await, log,
    client_call.
  rewrite Hc, Ht, Hp. simpl negb. cbv iota. rewrite Htr. simpl.
  destruct (script st) as [|[e|] rest]; simpl in *;
    try discriminate; now rewrite <- !app_assoc.
Qed.

(** X15.  When the send of the formatted text raises, the original message
    is forwarded to the destination group instead, once, and the handler
    returns. *)
Theorem failed_send_forwards_original (ev : event) (c : chat) (st : state)
    (reason : option string) (text e : string) (rest : list (option string)) :
  get_chat ev = inr c ->
  raw_text (ev_message ev) <> "" ->
  process_with_llm generate (raw_text (ev_message ev))
  = (true, reason, Some text) ->
  script st = Some e :: rest ->
  message_handler destination_group generate ev st
  = ({| script := tl rest;
        trace := trace st ++
          [received c;
           SendMessage destination_group text false;
           Log ERROR ("Error processing message: " ++ e);
           ForwardMessages destination_group (ev_message ev);
           match rest with
           | Some forward_error :: _ =>
               Log ERROR ("Failed to forward original message: "
                          ++ forward_error)
           | _ => Log INFO "Forwarded original message as fallback"
           end]
     |}, inr tt).
Proof.
  intros Hc Ht Hp Hs. apply String.eqb_neq in Ht.
  pose proof (valid_result_truthy generate _ _ _ Hp) as Htr.
  unfold message_handler, try_except, handler_body, fallback, bind,
    try_except, await, log, client_call.
  rewrite Hc, Ht, Hp. simpl negb. cbv iota. rewrite Htr. simpl.
  rewrite Hs. simpl.
  destruct rest as [|[fe|] rest']; simpl; now rewrite <- !app_assoc.
Qed.

(** X16.  When the fetch of the chat of the event raises an exception of
    class [Exception], the original message is forwarded to the
    destination group, whatever its text, even empty, and whatever the text
    generation would answer for it. *)
Theorem unknown_chat_forwards_unvalidated (ev : event) (e : string)
    (st : state) :
  get_chat ev = inl e ->
  message_handler destination_group generate ev st
  = ({| script := tl (script st);
        trace := trace st ++
          [Log ERROR ("Error processing message: " ++ e);
           ForwardMessages destination_group (ev_message ev);
           match script st with
           | Some forward_error :: _ =>
               Log ERROR ("Failed to forward original message: "
                          ++ forward_error)
           | _ => Log INFO "Forwarded original message as fallback"
           end]
     |}, inr tt).
Proof.
  intros Hc.
  unfold message_handler, try_except, handler_body, fallback, bind,
    try_except, await, log, client_call.
  rewrite Hc. simpl.
  destruct (script st) as [|[fe|] rest']; simpl; now rewrite <- !app_assoc.
Qed.

(** X17.  Whatever the event and whatever the client does, the handler
    calls [send_message] once at most and [forward_messages] once at most,
    only ever for the destination group; it sends with the link preview off
    and forwards nothing but the message of the event. *)
Theorem handler_calls_bounded (ev : event) (outcomes : list (option string)) :
  let tr := fst (run (message_handler destination_group generate ev)
                     outcomes) in
  (List.length (filter is_send tr) <= 1)%nat
  /\ (List.length (filter is_forward tr) <= 1)%nat
  /\ (forall entity text preview,
         In (SendMessage entity text preview) tr ->
         entity = destination_group /\ preview = false)
  /\ (forall entity msg,
         In (ForwardMessages entity msg) tr ->
         entity = destination_group /\ msg = ev_message ev).
Proof.
  unfold run, message_handler, try_except, handler_body, fallback, bind,
    try_except, await, log, client_call.
  destruct (get_chat ev) as [e|c]; simpl.
  - destruct outcomes as [|[fe|] rest]; simpl;
      bounded_trace.
  - destruct (raw_text (ev_message ev) =? "")%string; simpl.
    + bounded_trace.
    + destruct (process_with_llm generate (raw_text (ev_message ev)))
        as [[v r] f] eqn:E.
      destruct v; simpl.
      * rewrite (valid_result_truthy generate _ _ _ E). simpl.
        destruct outcomes as [|[fe|] [|[fe'|] rest]]; simpl;
          bounded_trace.
      * bounded_trace.
Qed.

(** X18.  No exception of class [Exception] leaves the handler: whatever
    the event, and whichever calls of the client return or raise such an
    exception, the handler returns. *)
Theorem handler_never_raises (ev : event) (st : state) :
  snd (message_handler destination_group generate ev st) = inr tt.
Proof. apply message_handler_returns. Qed.

End RelayPaths.

Lemma empty_message_skipped_witness :
  let ev := {| Relay.ev_message := {| Relay.message_id := 42;
                                      Relay.raw_text := "" |};
               Relay.get_chat := inr {| Relay.title := "Signals";
                                        Relay.chat_id := (-100123)%Z |} |} in
  Relay.message_handler 7%Z (fun _ => Normalizer.Raised "unreachable") ev
    {| Relay.script := [Some "never used"]; Relay.trace := [] |}
  = ({| Relay.script := [Some "never used"];
        Relay.trace :=
          [Relay.Log Relay.INFO
             "Received message from source group: Signals (ID: -100123)";
           Relay.Log Relay.DEBUG "Skipping empty message"] |}, inr tt).
Proof.
  intros ev.
  exact (empty_message_skipped 7%Z _ ev 
           {| Relay.title := "Signals"; Relay.chat_id := (-100123)%Z |}
           {| Relay.script := [Some "never used"]; Relay.trace := [] |}
           eq_refl eq_refl).
Defined.

Lemma invalid_message_dropped_witness :
  let generate := fun _ : string =>
    Normalizer.Responded
      ("VALID: false" ++ PyStr.NL ++ "REASON: Missing stop loss level"
       ++ PyStr.NL ++ "FORMAT: None") in
  let ev := {| Relay.ev_message := {| Relay.message_id := 42;
                                      Relay.raw_text := "gold to the moon" |};
               Relay.get_chat := inr {| Relay.title := "Signals";
                                        Relay.chat_id := (-100123)%Z |} |} in
  Relay.message_handler 7%Z generate ev
    {| Relay.script := [Some "never used"]; Relay.trace := [] |}
  = ({| Relay.script := [Some "never used"];
        Relay.trace :=
          [Relay.Log Relay.INFO
             "Received message from source group: Signals (ID: -100123)";
           Relay.Log Relay.DEBUG
             "Skipping invalid trading message: Missing stop loss level"] |},
     inr tt).
Proof.
  intros generate ev.
  refine (invalid_message_dropped 7%Z generate ev 
           {| Relay.title := "Signals"; Relay.chat_id := (-100123)%Z |}
            {| Relay.script := [Some "never used"]; Relay.trace := [] |}
            (Some "Missing stop loss level") None eq_refl _ eq_refl).
  discriminate.
Defined.

Lemma valid_message_sent_witness :
  let generate := fun _ : string =>
    Normalizer.Responded
      ("VALID: true" ++ PyStr.NL ++ "REASON: Valid trading signal" ++ PyStr.NL
       ++ "FORMAT:" ++ PyStr.NL ++ "Asset: GOLD" ++ PyStr.NL
       ++ "Entry: 2930.88") in
  let ev := {| Relay.ev_message := {| Relay.message_id := 42;
                                      Relay.raw_text := "GOLD buy 2930.88" |};
               Relay.get_chat := inr {| Relay.title := "Signals";
                                        Relay.chat_id := (-100123)%Z |} |} in
  Relay.message_handler 7%Z generate ev
    {| Relay.script := []; Relay.trace := [] |}
  = ({| Relay.script := [];
        Relay.trace :=
          [Relay.Log Relay.INFO
             "Received message from source group: Signals (ID: -100123)";
           Relay.SendMessage 7%Z
             ("Asset: GOLD" ++ PyStr.NL ++ "Entry: 2930.88") false;
           Relay.Log Relay.INFO
             ("Successfully processed and forwarded trading message:"
              ++ PyStr.NL ++ "Original:" ++ PyStr.NL ++ "GOLD buy 2930.88"
              ++ PyStr.NL ++ PyStr.NL ++ "Formatted:" ++ PyStr.NL
              ++ "Asset: GOLD" ++ PyStr.NL ++ "Entry: 2930.88")] |},
     inr tt).
Proof.
  intros generate ev.
  refine (valid_message_sent 7%Z generate ev 
           {| Relay.title := "Signals"; Relay.chat_id := (-100123)%Z |}
            {| Relay.script := []; Relay.trace := [] |}
            None _ eq_refl _ eq_refl eq_refl).
  discriminate.
Defined.

Lemma failed_send_forwards_original_witness :
  let generate := fun _ : string =>
    Normalizer.Responded
      ("VALID: true" ++ PyStr.NL ++ "REASON: Valid trading signal" ++ PyStr.NL
       ++ "FORMAT:" ++ PyStr.NL ++ "Asset: GOLD") in
  let msg := {| Relay.message_id := 42; Relay.raw_text := "GOLD buy" |} in
  let ev := {| Relay.ev_message := msg;
               Relay.get_chat := inr {| Relay.title := "Signals";
                                        Relay.chat_id := (-100123)%Z |} |} in
  Relay.message_handler 7%Z generate ev
    {| Relay.script := [Some "FloodWaitError"]; Relay.trace := [] |}
  = ({| Relay.script := [];
        Relay.trace :=
          [Relay.Log Relay.INFO
             "Received message from source group: Signals (ID: -100123)";
           Relay.SendMessage 7%Z "Asset: GOLD" false;
           Relay.Log Relay.ERROR "Error processing message: FloodWaitError";
           Relay.ForwardMessages 7%Z msg;
           Relay.Log Relay.INFO "Forwarded original message as fallback"] |},
     inr tt).
Proof.
  intros generate msg ev.
  refine (failed_send_forwards_original 7%Z generate ev 
           {| Relay.title := "Signals"; Relay.chat_id := (-100123)%Z |}
            {| Relay.script := [Some "FloodWaitError"]; Relay.trace := [] |}
            None "Asset: GOLD" "FloodWaitError" [] eq_refl _ eq_refl eq_refl).
  discriminate.
Defined.

Lemma unknown_chat_forwards_unvalidated_witness :
  let msg := {| Relay.message_id := 42; Relay.raw_text := "hello there" |} in
  let ev := {| Relay.ev_message := msg;
               Relay.get_chat := inl "ChannelPrivateError" |} in
  Relay.message_handler 7%Z (fun _ => Normalizer.Raised "unreachable") ev
    {| Relay.script := []; Relay.trace := [] |}
  = ({| Relay.script := [];
        Relay.trace :=
          [Relay.Log Relay.ERROR
             "Error processing message: ChannelPrivateError";
           Relay.ForwardMessages 7%Z msg;
           Relay.Log Relay.INFO "Forwarded original message as fallback"] |},
     inr tt).
Proof.
  intros msg ev.
  exact (unknown_chat_forwards_unvalidated 7%Z _ ev "ChannelPrivateError"
           {| Relay.script := []; Relay.trace := [] |} eq_refl).
Defined.

(** * Properties of the start of the bot *)

Section BotMain.

Variable phone : string.
Variable source_groups_str : string.

(** X19.  When two-step verification is enabled, [main] logs it and
    returns: no handler is registered, the bot does not run, and nothing is
    raised. *)
Theorem two_step_verification_stops (c : Bot.client) (msg : string) :
  Bot.is_user_authorized c = inr false ->
  Bot.send_code_request c = None ->
  Bot.sign_in c = Some (Bot.SessionPasswordNeededError msg) ->
  Bot.main phone source_groups_str c []
  = ([ Bot.IsUserAuthorized;
       Bot.SendCodeRequest phone;
       Bot.Log Relay.INFO
         "Please check your Telegram account for the login code.";
       Bot.SignIn phone;
       Bot.Log Relay.ERROR
         "Two-step verification is enabled. Please disable it or implement password handling." ],
     inr tt).
Proof.
  intros Ha Hc Hs.
  unfold Bot.main, Bot.try_except, Bot.sign_in_if_needed, Bot.bind,
    Bot.try_except_password, Bot.call_unit, Bot.call, Bot.log, Bot.ret.
  rewrite Ha, Hc, Hs. reflexivity.
Qed.

(** X20.  When the session is already authorized, [main] asks for no login
    code and does not sign in: it registers the handlers and runs until the
    client is disconnected. *)
Theorem authorized_session_runs (c : Bot.client) :
  Bot.is_user_authorized c = inr true ->
  Bot.run_until_disconnected c = None ->
  Bot.main phone source_groups_str c []
  = ([ Bot.IsUserAuthorized;
       Bot.Log Relay.INFO
         ("Monitoring the following source groups: " ++ source_groups_str);
       Bot.RegisterHandlers;
       Bot.Log Relay.INFO
         "Bot started successfully. Listening for messages...";
       Bot.RunUntilDisconnected ],
     inr tt).
Proof.
  intros Ha Hr.
  unfold Bot.main, Bot.try_except, Bot.sign_in_if_needed, Bot.bind,
    Bot.try_except_password, Bot.call_unit, Bot.call, Bot.log, Bot.ret.
  rewrite Ha, Hr. reflexivity.
Qed.


(** X22.  [main] starts to run the client only after it has registered the
    handlers, and registers them only for a session that is authorized or
    has just signed in. *)
Theorem runs_only_with_handlers (c : Bot.client) :
  let tr := fst (Bot.main phone source_groups_str c []) in
  (In Bot.RunUntilDisconnected tr ->
   In Bot.RegisterHandlers (Bot.before_run tr))
  /\ (In Bot.RegisterHandlers tr ->
      Bot.is_user_authorized c = inr true
      \/ (Bot.is_user_authorized c = inr false
          /\ Bot.send_code_request c = None /\ Bot.sign_in c = None)).
Proof.
  unfold Bot.main, Bot.try_except, Bot.sign_in_if_needed, Bot.bind,
    Bot.try_except_password, Bot.call_unit, Bot.call, Bot.log, Bot.ret,
    Bot.raise.
  destruct (Bot.is_user_authorized c) as [e0|[|]]; simpl.
  - split; intros H; simpl in H; intuition discriminate.
  - destruct (Bot.run_until_disconnected c) as [e0|]; simpl;
      (split; [intros _; simpl; tauto | intros _; now left]).
  - destruct (Bot.send_code_request c) as [e0|]; simpl.
    + split; intros H; simpl in H; intuition discriminate.
    + destruct (Bot.sign_in c) as [[m|m]|]; simpl.
      * split; intros H; simpl in H; intuition discriminate.
      * split; intros H; simpl in H; intuition discriminate.
      * destruct (Bot.run_until_disconnected c) as [e0|]; simpl;
          (split; [intros _; simpl; tauto | intros _; right; auto]).
Qed.

End BotMain.

Lemma two_step_verification_stops_witness :
  let c := {| Bot.is_user_authorized := inr false;
              Bot.send_code_request := None;
              Bot.sign_in := Some (Bot.SessionPasswordNeededError "2FA");
              Bot.run_until_disconnected := None |} in
  Bot.main "+10000000000" "[-100123]" c []
  = ([ Bot.IsUserAuthorized;
       Bot.SendCodeRequest "+10000000000";
       Bot.Log Relay.INFO
         "Please check your Telegram account for the login code.";
       Bot.SignIn "+10000000000";
       Bot.Log Relay.ERROR
         "Two-step verification is enabled. Please disable it or implement password handling." ],
     inr tt).
Proof.
  intros c.
  exact (two_step_verification_stops "+10000000000" "[-100123]" c "2FA"
           eq_refl eq_refl eq_refl).
Defined.

Lemma authorized_session_runs_witness :
  let c := {| Bot.is_user_authorized := inr true;
              Bot.send_code_request := Some (Bot.OtherError "never used");
              Bot.sign_in := Some (Bot.OtherError "never used");
              Bot.run_until_disconnected := None |} in
  Bot.main "+10000000000" "[-100123]" c []
  = ([ Bot.IsUserAuthorized;
       Bot.Log Relay.INFO "Monitoring the following source groups: [-100123]";
       Bot.RegisterHandlers;
       Bot.Log Relay.INFO
         "Bot started successfully. Listening for messages...";
       Bot.RunUntilDisconnected ],
     inr tt).
Proof.
  intros c.
  exact (authorized_session_runs "+10000000000" "[-100123]" c
           eq_refl eq_refl).
Defined.

